(** * plugin-sentry: a shallow embedding of the Sentry release plugin

    The Go sources [client.go] and [plugin.go] are embedded as Rocq
    functions.  Go strings are byte sequences, so they are Rocq [string]s
    (lists of [ascii]); slices are lists; [map[string]any] is a [gmap] from
    strings to a small universe of dynamic values; an [error] is its message;
    the field [F] of the struct [T] is the projection [T_F].
    Code that talks to the network or reads the clock runs in a state monad
    over the outside world; the operations of the client that are invoked
    and the requests handed to the HTTP client are recorded, so that
    "no remote call" is a statement about those records. *)

From Stdlib Require Import Ascii String.
From stdpp Require Import base strings list gmap pretty.

Local Set Warnings "-register-all".

(** ** Go values *)

(** A Go [error], as the text [%v] prints for it. *)
Definition error := string.

(** A call that returns [(T, error)]. *)
Inductive result (A : Type) : Type :=
| Ok (a : A)
| Err (e : error).
Arguments Ok {A} a.
Arguments Err {A} e.

Definition is_ok {A} (r : result A) : bool :=
  match r with Ok _ => true | Err _ => false end.

(** [time.Time], kept as the instant's RFC 3339 text; the zero time is the
    empty text. *)
Inductive Time := TimeOf (rfc3339 : string).

Definition zero_Time : Time := TimeOf "".

(** The dynamic values ([any]) that appear in configuration maps, request
    bodies and plugin outputs. *)
Inductive Any :=
| ANil
| AString (s : string)
| ABool (b : bool)
| AStrings (l : list string)
| ATime (t : Time)
| ASlice (l : list Any)
| AMap (m : gmap string Any)
| AOther (tag : string).

(** [strings.Join]. *)
Fixpoint strings_Join (elems : list string) (sep : string) : string :=
  match elems with
  | [] => ""
  | [x] => x
  | x :: rest => x +:+ sep +:+ strings_Join rest sep
  end.

(** ** client.go: the wire types *)

Record Project := {
  Project_ID : string;
  Project_Name : string;
  Project_Slug : string;
}.

Record Release := {
  Release_Version : string;
  Release_ShortVersion : string;
  Release_Ref : string;
  Release_URL : string;
  Release_DateCreated : Time;
  Release_DateReleased : Time;
  Release_Projects : list Project;
}.

Record Deploy := {
  Deploy_ID : string;
  Deploy_Environment : string;
  Deploy_Name : string;
  Deploy_DateStarted : Time;
  Deploy_DateFinished : Time;
}.

Record Organization := {
  Organization_ID : string;
  Organization_Slug : string;
  Organization_Name : string;
}.

Record CommitSpec := {
  CommitSpec_ID : string;
  CommitSpec_Repository : string;
  CommitSpec_Message : string;
  CommitSpec_AuthorName : string;
  CommitSpec_AuthorEmail : string;
  CommitSpec_Timestamp : string;
}.

Record CreateReleaseRequest := {
  CreateReleaseRequest_Version : string;
  CreateReleaseRequest_Ref : string;
  CreateReleaseRequest_URL : string;
  CreateReleaseRequest_Projects : list string;
  CreateReleaseRequest_DateStarted : string;
}.

Record SetCommitsRequest := {
  SetCommitsRequest_Commits : list CommitSpec;
}.

Record APIError := {
  APIError_Detail : string;
}.

(** ** plugin.go: configuration *)

Record CommitsConfig := {
  CommitsConfig_Auto : bool;
  CommitsConfig_Repository : string;
}.

Record DeployConfig := {
  DeployConfig_Environment : string;
  DeployConfig_Name : string;
}.

Record SourcemapsConfig := {
  SourcemapsConfig_Path : string;
  SourcemapsConfig_URLPrefix : string;
  SourcemapsConfig_Include : list string;
  SourcemapsConfig_Exclude : list string;
}.

Record Config := {
  Config_AuthToken : string;
  Config_Org : string;
  Config_Project : string;
  Config_Projects : list string;
  Config_URL : string;
  Config_VersionFormat : string;
  Config_Environment : string;
  Config_SetCommits : bool;
  Config_Commits : CommitsConfig;
  Config_CreateDeploy : bool;
  Config_Deploy : DeployConfig;
  Config_UploadSourcemaps : bool;
  Config_Sourcemaps : SourcemapsConfig;
  Config_Finalize : bool;
}.

(** The zero values Go gives to declared but unset structs. *)
Definition zero_Release : Release :=
  {| Release_Version := ""; Release_ShortVersion := ""; Release_Ref := "";
     Release_URL := ""; Release_DateCreated := zero_Time;
     Release_DateReleased := zero_Time; Release_Projects := [] |}.

Definition zero_Deploy : Deploy :=
  {| Deploy_ID := ""; Deploy_Environment := ""; Deploy_Name := "";
     Deploy_DateStarted := zero_Time; Deploy_DateFinished := zero_Time |}.

Definition zero_Organization : Organization :=
  {| Organization_ID := ""; Organization_Slug := ""; Organization_Name := "" |}.

Definition zero_Project : Project :=
  {| Project_ID := ""; Project_Name := ""; Project_Slug := "" |}.

Definition zero_SourcemapsConfig : SourcemapsConfig :=
  {| SourcemapsConfig_Path := ""; SourcemapsConfig_URLPrefix := "";
     SourcemapsConfig_Include := []; SourcemapsConfig_Exclude := [] |}.

(** ** plugin.go: the pure helpers *)

(** [shortSHA]: [len] counts bytes and [sha[:7]] keeps the first seven. *)
Definition shortSHA (sha : string) : string :=
  if Nat.ltb 7 (String.length sha) then String.substring 0 7 sha else sha.

(** The search loop of [getProjects]: [found] becomes true at the first
    element equal to the single project, and the loop stops there. *)
Fixpoint found_in (projects : list string) (project : string) : bool :=
  match projects with
  | [] => false
  | p :: rest => if String.eqb p project then true else found_in rest project
  end.

(** [Config.getProjects]. *)
Definition getProjects (cfg : Config) : list string :=
  let projects := Config_Projects cfg in
  if negb (String.eqb (Config_Project cfg) "") then
    if negb (found_in projects (Config_Project cfg))
    then projects ++ [Config_Project cfg]
    else projects
  else projects.

(** The project list in the words of the specification: the union of the
    [projects] list and the single [project], deduplicated, in the order of
    first occurrence.  It is compared with [getProjects] below. *)
Fixpoint dedup (l : list string) : list string :=
  match l with
  | [] => []
  | x :: rest => x :: filter (λ y, y ≠ x) (dedup rest)
  end.

Definition union_deduplicated (cfg : Config) : list string :=
  dedup (Config_Projects cfg
         ++ (if String.eqb (Config_Project cfg) "" then [] else [Config_Project cfg])).

(** ** The libraries and the outside world

    The plugin is written against Go's standard library and the plugin SDK.
    What it takes from them is collected in interfaces; the development
    holds for every implementation of them. *)

(** The request bodies that [request] marshals. *)
Inductive ReqBody :=
| BodyCreateRelease (r : CreateReleaseRequest)
| BodySetCommits (r : SetCommitsRequest)
| BodyMap (m : gmap string Any).

(** The struct that [request] decodes a response into. *)
Inductive Target := IntoRelease | IntoDeploy | IntoOrganization | IntoProject.

Definition target_type (t : Target) : Type :=
  match t with
  | IntoRelease => Release
  | IntoDeploy => Deploy
  | IntoOrganization => Organization
  | IntoProject => Project
  end.

Definition target_zero (t : Target) : target_type t :=
  match t with
  | IntoRelease => zero_Release
  | IntoDeploy => zero_Deploy
  | IntoOrganization => zero_Organization
  | IntoProject => zero_Project
  end.

(** What [*result] holds after [request]: nothing when [result] is nil. *)
Definition result_type (t : option Target) : Type :=
  match t with
  | Some t => target_type t
  | None => unit
  end.

(** [encoding/json] and [net/url], as far as the client uses them. *)
Class GoCodec := {
  json_Marshal : ReqBody → result string;
  json_Unmarshal_APIError : string → result APIError;
  json_Unmarshal : ∀ t : Target, string → result (target_type t);
  url_PathEscape : string → string;
}.

(** The data handed to the version template. *)
Record VersionData := {
  VersionData_Version : string;
  VersionData_TagName : string;
  VersionData_ShortSHA : string;
}.

(** [text/template]: parsing, and executing a parsed template on the
    version data into a buffer. *)
Class GoTemplate := {
  Template : Type;
  template_Parse : string → string → result Template;
  template_Execute : Template → VersionData → result string;
}.

(** An outgoing HTTP request: method, full URL, the two headers the
    client sets, and the marshalled body. *)
Record HttpRequest := {
  HttpRequest_Method : string;
  HttpRequest_URL : string;
  HttpRequest_Authorization : string;
  HttpRequest_ContentType : string;
  HttpRequest_Body : option string;
}.

(** What comes back from [httpClient.Do] followed by [io.ReadAll]. *)
Inductive HttpOutcome :=
| DoFailed (e : error)
| ReadFailed (e : error)
| Response (StatusCode : Z) (respBody : string).

(** The world outside the process: the clock, read as
    [time.Now().UTC().Format(time.RFC3339)], and the network behind
    [http.Client].  Both may change the world; [http_NewRequest] is the
    local check of [http.NewRequestWithContext]. *)
Class Outside (W : Type) := {
  time_Now : W → string * W;
  httpClient_Do : HttpRequest → W → HttpOutcome * W;
  http_NewRequest : string → string → option error;
}.

Definition http_MethodGet : string := "GET".
Definition http_MethodPost : string := "POST".
Definition http_MethodPut : string := "PUT".

(** ** The monad of effects

    A computation transforms the world and extends two records: the
    operations of the client that were invoked, and the requests that
    reached the HTTP client. *)

(** An invocation of a method of [SentryClient], with its arguments. *)
Inductive ClientCall :=
| CallGetOrganization
| CallCreateRelease (version : string) (projects : list string)
| CallGetRelease (version : string)
| CallSetCommits (version : string) (commits : list CommitSpec)
| CallCreateDeploy (version : string) (deploy : DeployConfig)
| CallFinalizeRelease (version : string)
| CallGetProject (projectSlug : string).

Record St (W : Type) := {
  world : W;
  invoked : list ClientCall;
  sent : list HttpRequest;
}.
Arguments world {W} s.
Arguments invoked {W} s.
Arguments sent {W} s.

Definition M (W A : Type) : Type := St W → A * St W.

#[global] Instance M_ret {W} : MRet (M W) := λ A a s, (a, s).

#[global] Instance M_bind {W} : MBind (M W) :=
  λ A B k m s, let '(a, s') := m s in k a s'.

(** [time.Now().UTC().Format(time.RFC3339)]. *)
Definition now {W} {outside : Outside W} : M W string :=
  λ s, let '(t, w) := time_Now (world s) in
       (t, {| world := w; invoked := invoked s; sent := sent s |}).

(** [c.httpClient.Do(req)] and [io.ReadAll(resp.Body)]. *)
Definition do_request {W} {outside : Outside W} (req : HttpRequest) : M W HttpOutcome :=
  λ s, let '(o, w) := httpClient_Do req (world s) in
       (o, {| world := w; invoked := invoked s; sent := sent s ++ [req] |}).

(** Entering a method of the client. *)
Definition invoke {W} (c : ClientCall) : M W unit :=
  λ s, (tt, {| world := world s; invoked := invoked s ++ [c]; sent := sent s |}).

(** ** client.go: the client *)

Record SentryClient := {
  SentryClient_baseURL : string;
  SentryClient_authToken : string;
  SentryClient_org : string;
}.

(** [NewSentryClient]. *)
Definition NewSentryClient (baseURL authToken org : string) : SentryClient :=
  let baseURL := if String.eqb baseURL "" then "https://sentry.io" else baseURL in
  {| SentryClient_baseURL := baseURL;
     SentryClient_authToken := authToken;
     SentryClient_org := org |}.

Section Client.
Context {W : Type} {outside : Outside W} {codec : GoCodec}.

(** The error [request] makes of a response with status 400 or more. *)
Definition api_error (respBody : string) (status : Z) : error :=
  let raw := "API error: " +:+ respBody +:+ " (status " +:+ pretty status +:+ ")" in
  match json_Unmarshal_APIError respBody with
  | Ok apiErr =>
      if negb (String.eqb (APIError_Detail apiErr) "")
      then "API error: " +:+ APIError_Detail apiErr
           +:+ " (status " +:+ pretty status +:+ ")"
      else raw
  | Err _ => raw
  end.

(** The decoding step of [request]. *)
Definition decode (t : option Target) (respBody : string)
  : result (result_type t) :=
  match t return result (result_type t) with
  | None => Ok tt
  | Some t =>
      if Nat.ltb 0 (String.length respBody) then
        match json_Unmarshal t respBody with
        | Ok v => Ok v
        | Err e => Err ("failed to unmarshal response: " +:+ e)
        end
      else Ok (target_zero t)
  end.

(** [SentryClient.request]. *)
Definition request (c : SentryClient) (method endpoint : string)
    (body : option ReqBody) (t : option Target) : M W (result (result_type t)) :=
  let marshalled :=
    match body with
    | Some b =>
        match json_Marshal b with
        | Ok jsonBody => Ok (Some jsonBody)
        | Err e => Err ("failed to marshal request: " +:+ e)
        end
    | None => Ok None
    end in
  match marshalled with
  | Err e => mret (Err e)
  | Ok reqBody =>
      let fullURL := SentryClient_baseURL c +:+ "/api/0" +:+ endpoint in
      match http_NewRequest method fullURL with
      | Some e => mret (Err ("failed to create request: " +:+ e))
      | None =>
          let req :=
            {| HttpRequest_Method := method;
               HttpRequest_URL := fullURL;
               HttpRequest_Authorization := "Bearer " +:+ SentryClient_authToken c;
               HttpRequest_ContentType := "application/json";
               HttpRequest_Body := reqBody |} in
          out ← do_request req;
          match out with
          | DoFailed e => mret (Err ("failed to execute request: " +:+ e))
          | ReadFailed e => mret (Err ("failed to read response: " +:+ e))
          | Response status respBody =>
              if (400 <=? status)%Z
              then mret (Err (api_error respBody status))
              else mret (decode t respBody)
          end
      end
  end.

(** [SentryClient.GetOrganization]. *)
Definition GetOrganization (c : SentryClient) : M W (result Organization) :=
  _ ← invoke CallGetOrganization;
  let endpoint := "/organizations/" +:+ SentryClient_org c +:+ "/" in
  request c http_MethodGet endpoint None (Some IntoOrganization).

(** [SentryClient.GetRelease]. *)
Definition GetRelease (c : SentryClient) (version : string) : M W (result Release) :=
  _ ← invoke (CallGetRelease version);
  let endpoint := "/organizations/" +:+ SentryClient_org c +:+ "/releases/"
                  +:+ url_PathEscape version +:+ "/" in
  request c http_MethodGet endpoint None (Some IntoRelease).

(** The first half of [SentryClient.CreateRelease]: the request that
    creates the release, stamped with the clock. *)
Definition post_release (c : SentryClient) (version : string)
    (projects : list string) : M W (result Release) :=
  _ ← invoke (CallCreateRelease version projects);
  let endpoint := "/organizations/" +:+ SentryClient_org c +:+ "/releases/" in
  started ← now;
  let req := {| CreateReleaseRequest_Version := version;
                CreateReleaseRequest_Ref := "";
                CreateReleaseRequest_URL := "";
                CreateReleaseRequest_Projects := projects;
                CreateReleaseRequest_DateStarted := started |} in
  request c http_MethodPost endpoint (Some (BodyCreateRelease req))
    (Some IntoRelease).

(** [SentryClient.CreateRelease]: when the request fails, the release is
    looked up, and the error of the request is kept when that fails too. *)
Definition CreateRelease (c : SentryClient) (version : string)
    (projects : list string) : M W (result Release) :=
  r ← post_release c version projects;
  match r with
  | Err err =>
      g ← GetRelease c version;
      match g with
      | Ok existingRelease => mret (Ok existingRelease)
      | Err _ => mret (Err err)
      end
  | Ok release => mret (Ok release)
  end.

(** [SentryClient.SetCommits]. *)
Definition SetCommits (c : SentryClient) (version : string)
    (commits : list CommitSpec) : M W (result unit) :=
  _ ← invoke (CallSetCommits version commits);
  let endpoint := "/organizations/" +:+ SentryClient_org c +:+ "/releases/"
                  +:+ url_PathEscape version +:+ "/commits/" in
  let req := {| SetCommitsRequest_Commits := commits |} in
  request c http_MethodPost endpoint (Some (BodySetCommits req)) None.

(** [SentryClient.CreateDeploy]. *)
Definition CreateDeploy (c : SentryClient) (version : string)
    (deploy : DeployConfig) : M W (result Deploy) :=
  _ ← invoke (CallCreateDeploy version deploy);
  let endpoint := "/organizations/" +:+ SentryClient_org c +:+ "/releases/"
                  +:+ url_PathEscape version +:+ "/deploys/" in
  started ← now;
  finished ← now;
  let req : gmap string Any :=
    <["environment" := AString (DeployConfig_Environment deploy)]>
    (<["dateStarted" := AString started]>
    (<["dateFinished" := AString finished]> ∅)) in
  let req := if negb (String.eqb (DeployConfig_Name deploy) "")
             then <["name" := AString (DeployConfig_Name deploy)]> req
             else req in
  request c http_MethodPost endpoint (Some (BodyMap req)) (Some IntoDeploy).

(** [SentryClient.FinalizeRelease]. *)
Definition FinalizeRelease (c : SentryClient) (version : string)
  : M W (result unit) :=
  _ ← invoke (CallFinalizeRelease version);
  let endpoint := "/organizations/" +:+ SentryClient_org c +:+ "/releases/"
                  +:+ url_PathEscape version +:+ "/" in
  released ← now;
  let req : gmap string Any := <["dateReleased" := AString released]> ∅ in
  request c http_MethodPut endpoint (Some (BodyMap req)) None.


End Client.

(** ** The plugin SDK *)

Record ConventionalCommit := {
  ConventionalCommit_Hash : string;
  ConventionalCommit_Type : string;
  ConventionalCommit_Description : string;
}.

Record CategorizedChanges := {
  CategorizedChanges_Features : list ConventionalCommit;
  CategorizedChanges_Fixes : list ConventionalCommit;
  CategorizedChanges_Breaking : list ConventionalCommit;
  CategorizedChanges_Other : list ConventionalCommit;
}.

(** [plugin.ReleaseContext]; [Changes] is a pointer and may be nil. *)
Record ReleaseContext := {
  ReleaseContext_Version : string;
  ReleaseContext_TagName : string;
  ReleaseContext_CommitSHA : string;
  ReleaseContext_Branch : string;
  ReleaseContext_Changes : option CategorizedChanges;
}.

Record ExecuteRequest := {
  ExecuteRequest_Hook : string;
  ExecuteRequest_Config : gmap string Any;
  ExecuteRequest_Context : ReleaseContext;
  ExecuteRequest_DryRun : bool;
}.

Record ExecuteResponse := {
  ExecuteResponse_Success : bool;
  ExecuteResponse_Message : string;
  ExecuteResponse_Error : string;
  ExecuteResponse_Outputs : gmap string Any;
}.

Record ValidationError := {
  ValidationError_Field : string;
  ValidationError_Message : string;
}.

Record ValidateResponse := {
  ValidateResponse_Valid : bool;
  ValidateResponse_Errors : list ValidationError;
}.

(** [plugin.Info]. *)
Record Info := {
  Info_Name : string;
  Info_Version : string;
  Info_Description : string;
  Info_Author : string;
  Info_Hooks : list string;
}.

(** [helpers.ValidationBuilder], as the plugin drives it: errors are
    collected in the order they are added, and the response is valid when
    there is none. *)
Definition ValidationBuilder := list ValidationError.

Definition NewValidationBuilder : ValidationBuilder := [].

Definition AddError (vb : ValidationBuilder) (field message : string)
  : ValidationBuilder :=
  vb ++ [{| ValidationError_Field := field; ValidationError_Message := message |}].

Definition Build (vb : ValidationBuilder) : ValidateResponse :=
  {| ValidateResponse_Valid := bool_decide (vb = []);
     ValidateResponse_Errors := vb |}.

(** The hook names of the SDK and its [helpers.ConfigParser], which reads a
    key of the raw map with a fallback to an environment variable and then
    to a default. *)
Class PluginSdk := {
  HookPrePublish : string;
  HookPostPublish : string;
  HookOnError : string;
  GetString : gmap string Any → string → string → string → string;
  GetBool : gmap string Any → string → bool → bool;
}.

(** The nil [error]. *)
Definition nil_error : option error := None.

(** ** plugin.go: the plugin *)

(** The strings among the elements of a [[]any], in order. *)
Fixpoint only_strings (l : list Any) : list string :=
  match l with
  | [] => []
  | AString s :: rest => s :: only_strings rest
  | _ :: rest => only_strings rest
  end.

Section Plugin.
Context {W : Type} {outside : Outside W} {codec : GoCodec}
        {templates : GoTemplate} {sdk : PluginSdk}.

(** The package variable [Version], as initialised in the source. *)
Definition Version : string := "0.1.0".

(** [SentryPlugin.GetInfo]. *)
Definition GetInfo : Info :=
  {| Info_Name := "sentry";
     Info_Version := Version;
     Info_Description :=
       "Sentry release tracking, deploy notifications, and commit association";
     Info_Author := "Relicta";
     Info_Hooks := [HookPrePublish; HookPostPublish; HookOnError] |}.

(** [SentryPlugin.parseConfig]. *)
Definition parseConfig (raw : gmap string Any) : Config :=
  let environment := GetString raw "environment" "" "production" in
  {| Config_AuthToken := GetString raw "auth_token" "SENTRY_AUTH_TOKEN" "";
     Config_Org := GetString raw "org" "SENTRY_ORG" "";
     Config_Project := GetString raw "project" "SENTRY_PROJECT" "";
     Config_URL := GetString raw "url" "SENTRY_URL" "https://sentry.io";
     Config_VersionFormat := GetString raw "version_format" "" "{{.Version}}";
     Config_Environment := environment;
     Config_SetCommits := GetBool raw "set_commits" true;
     Config_CreateDeploy := GetBool raw "create_deploy" true;
     Config_UploadSourcemaps := GetBool raw "upload_sourcemaps" false;
     Config_Finalize := GetBool raw "finalize" true;
     Config_Projects :=
       match raw !! "projects" with
       | Some (ASlice projects) => only_strings projects
       | _ => []
       end;
     Config_Commits :=
       match raw !! "commits" with
       | Some (AMap commits) =>
           {| CommitsConfig_Auto := GetBool commits "auto" true;
              CommitsConfig_Repository := GetString commits "repository" "" "" |}
       | _ => {| CommitsConfig_Auto := true; CommitsConfig_Repository := "" |}
       end;
     Config_Deploy :=
       match raw !! "deploy" with
       | Some (AMap deploy) =>
           {| DeployConfig_Environment :=
                GetString deploy "environment" "" environment;
              DeployConfig_Name := GetString deploy "name" "" "" |}
       | _ => {| DeployConfig_Environment := environment;
                 DeployConfig_Name := "" |}
       end;
     Config_Sourcemaps :=
       match raw !! "sourcemaps" with
       | Some (AMap sourcemaps) =>
           {| SourcemapsConfig_Path := GetString sourcemaps "path" "" "./dist";
              SourcemapsConfig_URLPrefix :=
                GetString sourcemaps "url_prefix" "" "~/";
              SourcemapsConfig_Include :=
                match sourcemaps !! "include" with
                | Some (ASlice include) => only_strings include
                | _ => []
                end;
              SourcemapsConfig_Exclude :=
                match sourcemaps !! "exclude" with
                | Some (ASlice exclude) => only_strings exclude
                | _ => []
                end |}
       | _ => zero_SourcemapsConfig
       end |}.

(** [SentryPlugin.formatVersion]. *)
Definition formatVersion (format : string) (ctx : ReleaseContext)
  : result string :=
  match template_Parse "version" format with
  | Err err => Err err
  | Ok tmpl =>
      let data :=
        {| VersionData_Version := ReleaseContext_Version ctx;
           VersionData_TagName := ReleaseContext_TagName ctx;
           VersionData_ShortSHA := shortSHA (ReleaseContext_CommitSHA ctx) |} in
      match template_Execute tmpl data with
      | Err err => Err err
      | Ok buf => Ok buf
      end
  end.

(** The loop of [extractCommits]: one [CommitSpec] is appended per
    commit, stamped with the clock as read at that moment. *)
Fixpoint extract_loop (repository : string) (allCommits : list ConventionalCommit)
    (commits : list CommitSpec) : M W (list CommitSpec) :=
  match allCommits with
  | [] => mret commits
  | c :: rest =>
      stamp ← now;
      extract_loop repository rest
        (commits ++ [{| CommitSpec_ID := ConventionalCommit_Hash c;
                        CommitSpec_Repository := repository;
                        CommitSpec_Message := ConventionalCommit_Description c;
                        CommitSpec_AuthorName := "";
                        CommitSpec_AuthorEmail := "";
                        CommitSpec_Timestamp := stamp |}])
  end.

(** [SentryPlugin.extractCommits]. *)
Definition extractCommits (cfg : Config) (releaseCtx : ReleaseContext)
  : M W (list CommitSpec) :=
  match ReleaseContext_Changes releaseCtx with
  | None => mret []
  | Some changes =>
      let repository := CommitsConfig_Repository (Config_Commits cfg) in
      let repository := if String.eqb repository "" then "unknown" else repository in
      let allCommits := [] ++ CategorizedChanges_Features changes in
      let allCommits := allCommits ++ CategorizedChanges_Fixes changes in
      let allCommits := allCommits ++ CategorizedChanges_Breaking changes in
      let allCommits := allCommits ++ CategorizedChanges_Other changes in
      extract_loop repository allCommits []
  end.

(** The response of a failed version rendering, shared by both phases. *)
Definition format_failure (err : error) : ExecuteResponse :=
  {| ExecuteResponse_Success := false;
     ExecuteResponse_Message := "";
     ExecuteResponse_Error := "Failed to format version: " +:+ err;
     ExecuteResponse_Outputs := ∅ |}.

(** [SentryPlugin.handlePrePublish]. *)
Definition handlePrePublish (cfg : Config) (releaseCtx : ReleaseContext)
    (dryRun : bool) : M W (ExecuteResponse * option error) :=
  match formatVersion (Config_VersionFormat cfg) releaseCtx with
  | Err err => mret (format_failure err, nil_error)
  | Ok version =>
      let projects := getProjects cfg in
      if dryRun then
        mret ({| ExecuteResponse_Success := true;
                 ExecuteResponse_Message :=
                   "Would create Sentry release '" +:+ version
                   +:+ "' for projects: " +:+ strings_Join projects ", ";
                 ExecuteResponse_Error := "";
                 ExecuteResponse_Outputs :=
                   <["version" := AString version]>
                   (<["projects" := AStrings projects]> ∅) |}, nil_error)
      else
        let client := NewSentryClient (Config_URL cfg) (Config_AuthToken cfg)
                        (Config_Org cfg) in
        r ← CreateRelease client version projects;
        match r with
        | Err err =>
            mret ({| ExecuteResponse_Success := false;
                     ExecuteResponse_Message := "";
                     ExecuteResponse_Error := "Failed to create release: " +:+ err;
                     ExecuteResponse_Outputs := ∅ |}, nil_error)
        | Ok release =>
            mret ({| ExecuteResponse_Success := true;
                     ExecuteResponse_Message :=
                       "Created Sentry release: " +:+ Release_Version release;
                     ExecuteResponse_Error := "";
                     ExecuteResponse_Outputs :=
                       <["version" := AString (Release_Version release)]>
                       (<["release_url" := AString (Release_URL release)]>
                       (<["date_created" := ATime (Release_DateCreated release)]>
                        ∅)) |}, nil_error)
        end
  end.

(** The dry-run branch of [handlePostPublish]. *)
Definition post_publish_dry_run (cfg : Config) : list string :=
  let results := [] in
  let results := if Config_SetCommits cfg
                 then results ++ ["Would associate commits with release"]
                 else results in
  let results := if Config_CreateDeploy cfg
                 then results ++ ["Would create deploy for environment: "
                                  +:+ DeployConfig_Environment (Config_Deploy cfg)]
                 else results in
  let results := if Config_Finalize cfg
                 then results ++ ["Would finalize release"]
                 else results in
  results.

(** The three steps of the live branch of [handlePostPublish]; each
    takes the messages collected so far and returns them extended. *)
Definition associate_commits (client : SentryClient) (cfg : Config)
    (releaseCtx : ReleaseContext) (version : string) (results : list string)
  : M W (list string) :=
  if Config_SetCommits cfg then
    commits ← extractCommits cfg releaseCtx;
    if Nat.ltb 0 (length commits) then
      r ← SetCommits client version commits;
      match r with
      | Err err => mret (results ++ ["Warning: Failed to set commits: " +:+ err])
      | Ok _ => mret (results ++ ["Associated " +:+ pretty (length commits)
                                  +:+ " commits"])
      end
    else mret results
  else mret results.

Definition create_deploy (client : SentryClient) (cfg : Config)
    (version : string) (results : list string) : M W (list string) :=
  if Config_CreateDeploy cfg then
    r ← CreateDeploy client version (Config_Deploy cfg);
    match r with
    | Err err => mret (results ++ ["Warning: Failed to create deploy: " +:+ err])
    | Ok deploy => mret (results ++ ["Created deploy: "
                                     +:+ Deploy_Environment deploy])
    end
  else mret results.

Definition finalize_release (client : SentryClient) (cfg : Config)
    (version : string) (results : list string) : M W (list string) :=
  if Config_Finalize cfg then
    r ← FinalizeRelease client version;
    match r with
    | Err err => mret (results ++ ["Warning: Failed to finalize release: " +:+ err])
    | Ok _ => mret (results ++ ["Finalized release"])
    end
  else mret results.

(** [SentryPlugin.handlePostPublish]. *)
Definition handlePostPublish (cfg : Config) (releaseCtx : ReleaseContext)
    (dryRun : bool) : M W (ExecuteResponse * option error) :=
  match formatVersion (Config_VersionFormat cfg) releaseCtx with
  | Err err => mret (format_failure err, nil_error)
  | Ok version =>
      if dryRun then
        mret ({| ExecuteResponse_Success := true;
                 ExecuteResponse_Message :=
                   strings_Join (post_publish_dry_run cfg) "; ";
                 ExecuteResponse_Error := "";
                 ExecuteResponse_Outputs := <["version" := AString version]> ∅ |},
              nil_error)
      else
        let client := NewSentryClient (Config_URL cfg) (Config_AuthToken cfg)
                        (Config_Org cfg) in
        results ← associate_commits client cfg releaseCtx version [];
        results ← create_deploy client cfg version results;
        results ← finalize_release client cfg version results;
        let results := if Nat.eqb (length results) 0
                       then results ++ ["No actions taken"]
                       else results in
        mret ({| ExecuteResponse_Success := true;
                 ExecuteResponse_Message := strings_Join results "; ";
                 ExecuteResponse_Error := "";
                 ExecuteResponse_Outputs := <["version" := AString version]> ∅ |},
              nil_error)
  end.

(** [SentryPlugin.handleOnError]. *)
Definition handleOnError (cfg : Config) (releaseCtx : ReleaseContext)
    (dryRun : bool) : M W (ExecuteResponse * option error) :=
  mret ({| ExecuteResponse_Success := true;
           ExecuteResponse_Message := "Release failure noted (no Sentry action taken)";
           ExecuteResponse_Error := "";
           ExecuteResponse_Outputs := ∅ |}, nil_error).

(** [SentryPlugin.Execute]. *)
Definition Execute (req : ExecuteRequest) : M W (ExecuteResponse * option error) :=
  let cfg := parseConfig (ExecuteRequest_Config req) in
  let hook := ExecuteRequest_Hook req in
  if String.eqb hook HookPrePublish then
    handlePrePublish cfg (ExecuteRequest_Context req) (ExecuteRequest_DryRun req)
  else if String.eqb hook HookPostPublish then
    handlePostPublish cfg (ExecuteRequest_Context req) (ExecuteRequest_DryRun req)
  else if String.eqb hook HookOnError then
    handleOnError cfg (ExecuteRequest_Context req) (ExecuteRequest_DryRun req)
  else
    mret ({| ExecuteResponse_Success := true;
             ExecuteResponse_Message := "Hook " +:+ hook +:+ " not implemented";
             ExecuteResponse_Error := "";
             ExecuteResponse_Outputs := ∅ |}, nil_error).

(** [SentryPlugin.Validate]. *)
Definition Validate (config : gmap string Any)
  : M W (ValidateResponse * option error) :=
  let vb := NewValidationBuilder in
  let cfg := parseConfig config in
  if String.eqb (Config_AuthToken cfg) "" then
    let vb := AddError vb "auth_token" "Sentry auth token is required" in
    mret (Build vb, nil_error)
  else
    let vb := if String.eqb (Config_Org cfg) ""
              then AddError vb "org" "Sentry organization is required"
              else vb in
    let projects := getProjects cfg in
    let vb := if Nat.eqb (length projects) 0
              then AddError vb "project" "At least one project is required"
              else vb in
    let vb :=
      if negb (String.eqb (Config_VersionFormat cfg) "") then
        match template_Parse "" (Config_VersionFormat cfg) with
        | Err err => AddError vb "version_format"
                       ("Invalid version format template: " +:+ err)
        | Ok _ => vb
        end
      else vb in
    if negb (String.eqb (Config_AuthToken cfg) "")
       && negb (String.eqb (Config_Org cfg) "") then
      let client := NewSentryClient (Config_URL cfg) (Config_AuthToken cfg)
                      (Config_Org cfg) in
      r ← GetOrganization client;
      match r with
      | Err err =>
          mret (Build (AddError vb "auth_token"
                         ("Failed to authenticate with Sentry: " +:+ err)), nil_error)
      | Ok _ => mret (Build vb, nil_error)
      end
    else mret (Build vb, nil_error).

End Plugin.

(** ** Vocabulary of the properties *)

(** The clock read [n] times in a row: the readings and the world left. *)
Fixpoint clock_reads {W} {outside : Outside W} (n : nat) (w : W) : list string * W :=
  match n with
  | 0 => ([], w)
  | S n =>
      let '(t, w) := time_Now w in
      let '(ts, w) := clock_reads n w in
      (t :: ts, w)
  end.

(** The record [extractCommits] builds from a commit and a time stamp. *)
Definition commit_spec (repository : string) (c : ConventionalCommit)
    (stamp : string) : CommitSpec :=
  {| CommitSpec_ID := ConventionalCommit_Hash c;
     CommitSpec_Repository := repository;
     CommitSpec_Message := ConventionalCommit_Description c;
     CommitSpec_AuthorName := "";
     CommitSpec_AuthorEmail := "";
     CommitSpec_Timestamp := stamp |}.

(** The changes of an event, category after category. *)
Definition all_changes (releaseCtx : ReleaseContext) : list ConventionalCommit :=
  match ReleaseContext_Changes releaseCtx with
  | None => []
  | Some changes =>
      CategorizedChanges_Features changes ++ CategorizedChanges_Fixes changes
      ++ CategorizedChanges_Breaking changes ++ CategorizedChanges_Other changes
  end.

(** A state with another world and the same records. *)
Definition with_world {W} (s : St W) (w : W) : St W :=
  {| world := w; invoked := invoked s; sent := sent s |}.

(** A sub-step of post-publish seen from outside: not attempted, or
    attempted with the result of its call. *)
Definition attempt {W A} (enabled : bool) (call : M W (result A))
  : M W (option (result A)) :=
  if enabled then r ← call; mret (Some r) else mret None.

(** The message each sub-step leaves for its outcome. *)
Definition commits_message (count : nat) (o : option (result unit)) : list string :=
  match o with
  | None => []
  | Some (Err err) => ["Warning: Failed to set commits: " +:+ err]
  | Some (Ok _) => ["Associated " +:+ pretty count +:+ " commits"]
  end.

Definition deploy_message (o : option (result Deploy)) : list string :=
  match o with
  | None => []
  | Some (Err err) => ["Warning: Failed to create deploy: " +:+ err]
  | Some (Ok deploy) => ["Created deploy: " +:+ Deploy_Environment deploy]
  end.

Definition finalize_message (o : option (result unit)) : list string :=
  match o with
  | None => []
  | Some (Err err) => ["Warning: Failed to finalize release: " +:+ err]
  | Some (Ok _) => ["Finalized release"]
  end.

(** The operations of the client that a live post-publish run invokes. *)
Definition post_publish_calls (cfg : Config) (version : string)
    (commits : list CommitSpec) : list ClientCall :=
  (if Config_SetCommits cfg && Nat.ltb 0 (length commits)
   then [CallSetCommits version commits] else [])
  ++ (if Config_CreateDeploy cfg
      then [CallCreateDeploy version (Config_Deploy cfg)] else [])
  ++ (if Config_Finalize cfg then [CallFinalizeRelease version] else []).



(** The release version an invocation of the client names, if any. *)
Definition call_version (c : ClientCall) : option string :=
  match c with
  | CallCreateRelease version _ => Some version
  | CallGetRelease version => Some version
  | CallSetCommits version _ => Some version
  | CallCreateDeploy version _ => Some version
  | CallFinalizeRelease version => Some version
  | CallGetOrganization => None
  | CallGetProject _ => None
  end.

(** Between two states nothing was sent but requests that satisfy [P]. *)
Definition sends_only {W} (P : HttpRequest → Prop) (s s' : St W) : Prop :=
  ∃ new, sent s' = sent s ++ new ∧ Forall P new.

(** An invocation that names the release [version] and, when it sets
    commits, sets at least one. *)
Definition names_release (version : string) (c : ClientCall) : Prop :=
  call_version c = Some version
  ∧ match c with
    | CallSetCommits _ commits => commits ≠ []
    | _ => True
    end.

(** Between two states only invocations that satisfy [P] were made. *)
Definition invokes {W} (P : ClientCall → Prop) (s s' : St W) : Prop :=
  ∃ calls, invoked s' = invoked s ++ calls ∧ Forall P calls.

(** The client a phase builds from its configuration. *)
Definition client_of (cfg : Config) : SentryClient :=
  NewSentryClient (Config_URL cfg) (Config_AuthToken cfg) (Config_Org cfg).

(** ** A scripted environment

    Concrete implementations of the interfaces, in the manner of the test
    doubles of [plugin_test.go]: a network that answers from a script, a
    clock that counts, and small stand-ins for the libraries.  They serve to
    run the plugin on concrete inputs. *)

Module Scripted.

(** A fragment of [text/template]: literal text and actions that are a
    single field reference, [{{.Name}}].  An action that is never closed
    is a parse error, as in Go; any other action lies outside the
    fragment and is refused by this parser.  A field the data does not
    have is an execution error, as in Go. *)
Inductive Node :=
| TextNode (text : string)
| FieldNode (name : string).

Definition text_node (text : string) : list Node :=
  if String.eqb text "" then [] else [TextNode text].

Definition is_ident_char (a : ascii) : bool :=
  let n := nat_of_ascii a in
  (Nat.leb 48 n && Nat.leb n 57) || (Nat.leb 65 n && Nat.leb n 90)
  || (Nat.leb 97 n && Nat.leb n 122) || Nat.eqb n 95.

Fixpoint all_ident (s : string) : bool :=
  match s with
  | EmptyString => true
  | String a rest => is_ident_char a && all_ident rest
  end.

Definition action_node (name inner : string) : result Node :=
  match inner with
  | String "." field =>
      if negb (String.eqb field "") && all_ident field
      then Ok (FieldNode field)
      else Err ("template: " +:+ name +:+ ":1: unsupported action")
  | _ => Err ("template: " +:+ name +:+ ":1: unsupported action")
  end.

(** One pass over the template text; [inAction] tells whether an opening
    delimiter is pending and [acc] holds the text read since the last
    delimiter. *)
Fixpoint scan (name : string) (inAction : bool) (acc : string) (s : string)
  : result (list Node) :=
  match s with
  | EmptyString =>
      if inAction then Err ("template: " +:+ name +:+ ":1: unclosed action")
      else Ok (text_node acc)
  | String a rest =>
      match rest with
      | String b rest' =>
          if negb inAction && Ascii.eqb a "{" && Ascii.eqb b "{" then
            match scan name true "" rest' with
            | Ok nodes => Ok (text_node acc ++ nodes)
            | Err e => Err e
            end
          else if inAction && Ascii.eqb a "}" && Ascii.eqb b "}" then
            match action_node name acc, scan name false "" rest' with
            | Ok node, Ok nodes => Ok (node :: nodes)
            | Err e, _ => Err e
            | _, Err e => Err e
            end
          else scan name inAction (acc +:+ String a EmptyString) rest
      | EmptyString => scan name inAction (acc +:+ String a EmptyString) rest
      end
  end.

Definition field_value (data : VersionData) (field : string) : result string :=
  if String.eqb field "Version" then Ok (VersionData_Version data)
  else if String.eqb field "TagName" then Ok (VersionData_TagName data)
  else if String.eqb field "ShortSHA" then Ok (VersionData_ShortSHA data)
  else Err ("can't evaluate field " +:+ field).

Fixpoint execute (nodes : list Node) (data : VersionData) : result string :=
  match nodes with
  | [] => Ok ""
  | TextNode text :: rest =>
      match execute rest data with
      | Ok out => Ok (text +:+ out)
      | Err e => Err e
      end
  | FieldNode field :: rest =>
      match field_value data field, execute rest data with
      | Ok v, Ok out => Ok (v +:+ out)
      | Err e, _ => Err e
      | _, Err e => Err e
      end
  end.

Definition templates : GoTemplate :=
  {| Template := list Node;
     template_Parse := λ name text, scan name false "" text;
     template_Execute := execute |}.

(** A codec whose wire format is plain text: a response body is the
    version of a release, the environment of a deploy, the slug of an
    organization or project, and the detail of an API error. *)
Definition codec : GoCodec :=
  {| json_Marshal := λ b,
       match b with
       | BodyCreateRelease r => Ok (CreateReleaseRequest_Version r)
       | BodySetCommits r =>
           Ok (strings_Join (CommitSpec_ID <$> SetCommitsRequest_Commits r) ",")
       | BodyMap m =>
           match m !! "environment" with
           | Some (AString e) => Ok e
           | _ => Ok ""
           end
       end;
     json_Unmarshal_APIError := λ body, Ok {| APIError_Detail := body |};
     json_Unmarshal := λ t,
       match t return string → result (target_type t) with
       | IntoRelease => λ body,
           Ok {| Release_Version := body; Release_ShortVersion := "";
                 Release_Ref := ""; Release_URL := "";
                 Release_DateCreated := zero_Time;
                 Release_DateReleased := zero_Time; Release_Projects := [] |}
       | IntoDeploy => λ body,
           Ok {| Deploy_ID := ""; Deploy_Environment := body; Deploy_Name := "";
                 Deploy_DateStarted := zero_Time;
                 Deploy_DateFinished := zero_Time |}
       | IntoOrganization => λ body,
           Ok {| Organization_ID := ""; Organization_Slug := body;
                 Organization_Name := "" |}
       | IntoProject => λ body,
           Ok {| Project_ID := ""; Project_Name := ""; Project_Slug := body |}
       end;
     url_PathEscape := λ v, v |}.

(** The world: a counting clock and the replies the network will give,
    in order; once the script is exhausted the connection is refused. *)
Record Script := {
  clock : nat;
  replies : list HttpOutcome;
}.

Definition outside : Outside Script :=
  {| time_Now := λ w,
       ("t" +:+ pretty (clock w),
        {| clock := S (clock w); replies := replies w |});
     httpClient_Do := λ _ w,
       match replies w with
       | [] => (DoFailed "connection refused", w)
       | r :: rest => (r, {| clock := clock w; replies := rest |})
       end;
     http_NewRequest := λ _ _, None |}.

(** The SDK with no environment variable set. *)
Definition sdk : PluginSdk :=
  {| HookPrePublish := "pre-publish";
     HookPostPublish := "post-publish";
     HookOnError := "on-error";
     GetString := λ raw key _ default,
       match raw !! key with
       | Some (AString v) => if String.eqb v "" then default else v
       | _ => default
       end;
     GetBool := λ raw key default,
       match raw !! key with
       | Some (ABool v) => v
       | _ => default
       end |}.

(** A fresh state: nothing invoked, nothing sent. *)
Definition start (replies : list HttpOutcome) : St Script :=
  {| world := {| clock := 0; replies := replies |}; invoked := []; sent := [] |}.

End Scripted.

(** ** Sample inputs *)

(** A configuration with the given projects, version template and
    post-publish switches, and otherwise the defaults of [parseConfig]. *)
Definition sample_config (project : string) (projects : list string)
    (format : string) (setCommits createDeploy finalize : bool) : Config :=
  {| Config_AuthToken := "test-token";
     Config_Org := "my-org";
     Config_Project := project;
     Config_Projects := projects;
     Config_URL := "https://sentry.io";
     Config_VersionFormat := format;
     Config_Environment := "production";
     Config_SetCommits := setCommits;
     Config_Commits := {| CommitsConfig_Auto := true;
                          CommitsConfig_Repository := "org/repo" |};
     Config_CreateDeploy := createDeploy;
     Config_Deploy := {| DeployConfig_Environment := "production";
                         DeployConfig_Name := "" |};
     Config_UploadSourcemaps := false;
     Config_Sourcemaps := zero_SourcemapsConfig;
     Config_Finalize := finalize |}.

(** The release event of [TestExtractCommits], given a version, tag and
    commit as in [TestFormatVersion]. *)
Definition sample_context : ReleaseContext :=
  {| ReleaseContext_Version := "1.2.3";
     ReleaseContext_TagName := "v1.2.3";
     ReleaseContext_CommitSHA := "abc123def456789";
     ReleaseContext_Branch := "main";
     ReleaseContext_Changes :=
       Some {| CategorizedChanges_Features :=
                 [{| ConventionalCommit_Hash := "abc123";
                     ConventionalCommit_Type := "feat";
                     ConventionalCommit_Description := "Add feature" |}];
               CategorizedChanges_Fixes :=
                 [{| ConventionalCommit_Hash := "def456";
                     ConventionalCommit_Type := "fix";
                     ConventionalCommit_Description := "Fix bug" |}];
               CategorizedChanges_Breaking := [];
               CategorizedChanges_Other := [] |} |}.

(** The same event with no changes attached. *)
Definition sample_context_without_changes : ReleaseContext :=
  {| ReleaseContext_Version := "1.2.3";
     ReleaseContext_TagName := "v1.2.3";
     ReleaseContext_CommitSHA := "abc123def456789";
     ReleaseContext_Branch := "main";
     ReleaseContext_Changes := None |}.

(** * Properties *)

(** ** [shortSHA] *)

Lemma append_empty_r (s : string) : s +:+ "" = s.
Proof.
  induction s as [|a s IH]; [done|].
  change (String a (s +:+ "") = String a s). by rewrite IH.
Qed.

Lemma substring_0_length (n : nat) (s : string) :
  n ≤ String.length s → String.length (String.substring 0 n s) = n.
Proof.
  revert s. induction n as [|n IH]; intros [|a s]; simpl; intros Hle;
    try reflexivity; try lia.
  f_equal. apply IH. lia.
Qed.

Lemma substring_0_prefix (n : nat) (s : string) :
  ∃ rest, s = String.substring 0 n s +:+ rest.
Proof.
  revert s. induction n as [|n IH]; intros [|a s]; simpl.
  - by exists "".
  - by exists (String a s).
  - by exists "".
  - destruct (IH s) as [rest Hrest]. exists rest.
    by rewrite Hrest at 1.
Qed.

(** C7: [shortSHA] keeps the first seven bytes of its input, or all of it
    when it is shorter: the three sample values; a result of exactly seven
    bytes, a prefix of the input, whenever the input has at least seven; and
    the input itself whenever it has fewer. *)
Theorem shortSHA_first_seven (sha : string) :
  (shortSHA "abc123def456789" = "abc123d" ∧ shortSHA "abc" = "abc" ∧ shortSHA "" = "")
  ∧ (7 ≤ String.length sha →
     String.length (shortSHA sha) = 7 ∧ ∃ rest, sha = shortSHA sha +:+ rest)
  ∧ (String.length sha < 7 → shortSHA sha = sha).
Proof.
  split; [by repeat split|]. unfold shortSHA. split; intros Hlen.
  - destruct (Nat.ltb_spec 7 (String.length sha)) as [Hlt|Hge].
    + split; [apply substring_0_length; lia | apply substring_0_prefix].
    + split; [lia | exists ""]. by rewrite append_empty_r.
  - destruct (Nat.ltb_spec 7 (String.length sha)); [lia | done].
Qed.

Lemma shortSHA_first_seven_witness :
  7 ≤ String.length "12345678" ∧ String.length (shortSHA "12345678") = 7
  ∧ String.length "abc" < 7 ∧ shortSHA "abc" = "abc".
Proof.
  split; [simpl; lia|]. split.
  - apply (shortSHA_first_seven "12345678"). simpl. lia.
  - split; [simpl; lia|]. apply (shortSHA_first_seven "abc"). simpl. lia.
Defined.

(** ** [getProjects] *)

Lemma found_in_elem_of (projects : list string) (project : string) :
  found_in projects project = true ↔ project ∈ projects.
Proof.
  induction projects as [|p rest IH]; simpl.
  - split; [done | by intros ?%elem_of_nil].
  - destruct (String.eqb_spec p project) as [->|Hne].
    + split; [intros _; left | done].
    + rewrite IH. split; [by right | intros [?|?]%elem_of_cons; congruence].
Qed.

Lemma getProjects_unfold (cfg : Config) :
  getProjects cfg =
  Config_Projects cfg
  ++ (if decide (Config_Project cfg ≠ "" ∧ Config_Project cfg ∉ Config_Projects cfg)
      then [Config_Project cfg] else []).
Proof.
  unfold getProjects.
  destruct (String.eqb_spec (Config_Project cfg) "") as [Heq|Hne]; simpl.
  - rewrite decide_False; [by rewrite app_nil_r | tauto].
  - destruct (found_in _ _) eqn:Hfound; simpl.
    + apply found_in_elem_of in Hfound.
      rewrite decide_False; [by rewrite app_nil_r | tauto].
    + rewrite decide_True; [done|]. split; [done|].
      intros Hin%found_in_elem_of. congruence.
Qed.

Lemma dedup_filter_ne (x : string) (l : list string) :
  x ∉ l → filter (λ y, y ≠ x) l = l.
Proof.
  induction l as [|y l IH]; [done|]. intros Hnin.
  apply not_elem_of_cons in Hnin as [Hne Hnin].
  rewrite filter_cons_True; [|congruence]. by rewrite IH.
Qed.

Lemma dedup_NoDup (l : list string) : NoDup l → dedup l = l.
Proof.
  induction 1 as [|x l Hnin Hnd IH]; [done|]. simpl.
  by rewrite IH, dedup_filter_ne.
Qed.

Lemma dedup_snoc_elem_of (l : list string) (x : string) :
  NoDup l → x ∈ l → dedup (l ++ [x]) = l.
Proof.
  induction 1 as [|y l Hnin Hnd IH]; [by intros ?%elem_of_nil|].
  intros Hin. simpl. f_equal.
  apply elem_of_cons in Hin as [->|Hin].
  - clear IH. rewrite (dedup_NoDup (l ++ [y])).
    + rewrite filter_app, dedup_filter_ne by done.
      rewrite filter_cons_False, filter_nil, app_nil_r; [done|]. by intros [].
    + apply NoDup_app. split_and!; [done| |apply NoDup_singleton].
      intros z Hz ?%list_elem_of_singleton. congruence.
  - rewrite IH by done. by apply dedup_filter_ne.
Qed.

(** C5, as amended: the effective project list is the [projects] list
    unchanged, followed by the single [project] exactly when that is
    non-empty and not already in the list.  Its elements are those of the
    list together with the non-empty single project.  When the list has no
    duplicates the result has none, and is the deduplicated union of the
    specification.  The two sample configurations give
    [frontend, backend, api] and [frontend, backend]. *)
Theorem getProjects_appends_single_project (cfg : Config) :
  getProjects cfg =
    Config_Projects cfg
    ++ (if decide (Config_Project cfg ≠ "" ∧ Config_Project cfg ∉ Config_Projects cfg)
        then [Config_Project cfg] else [])
  ∧ (∀ p, p ∈ getProjects cfg ↔
          p ∈ Config_Projects cfg ∨ (p = Config_Project cfg ∧ p ≠ ""))
  ∧ (NoDup (Config_Projects cfg) →
     NoDup (getProjects cfg) ∧ getProjects cfg = union_deduplicated cfg)
  ∧ getProjects (sample_config "api" ["frontend"; "backend"] "{{.Version}}"
                   true true true)
    = ["frontend"; "backend"; "api"]
  ∧ getProjects (sample_config "frontend" ["frontend"; "backend"] "{{.Version}}"
                   true true true)
    = ["frontend"; "backend"].
Proof.
  split; [apply getProjects_unfold|].
  split; [|split; [|by split]].
  - intros p. rewrite getProjects_unfold, elem_of_app.
    case_decide as Hd.
    + rewrite list_elem_of_singleton. destruct Hd as [Hne Hnin].
      split; [intros [?| ->]; tauto | intros [?|[? ?]]; tauto].
    + rewrite elem_of_nil.
      destruct (decide (p ∈ Config_Projects cfg)); [tauto|].
      split; [tauto|]. intros [?|[-> ?]]; tauto.
  - intros Hnd. rewrite getProjects_unfold. unfold union_deduplicated.
    destruct (String.eqb_spec (Config_Project cfg) "") as [Heq|Hne].
    + rewrite decide_False by tauto. rewrite app_nil_r.
      by rewrite dedup_NoDup.
    + case_decide as Hd.
      * assert (NoDup (Config_Projects cfg ++ [Config_Project cfg])) as Hnd'.
        { apply NoDup_app. split_and!; [done| |apply NoDup_singleton].
          intros z Hz ->%list_elem_of_singleton. tauto. }
        by rewrite dedup_NoDup.
      * rewrite app_nil_r. split; [done|]. symmetry.
        apply dedup_snoc_elem_of; [done|].
        destruct (decide (Config_Project cfg ∈ Config_Projects cfg)); tauto.
Qed.

Lemma getProjects_appends_single_project_witness :
  let cfg := sample_config "api" ["frontend"; "backend"] "{{.Version}}"
               true true true in
  NoDup (Config_Projects cfg)
  ∧ NoDup (getProjects cfg) ∧ getProjects cfg = union_deduplicated cfg.
Proof.
  intros cfg.
  assert (NoDup (Config_Projects cfg)) as Hnd.
  { compute_done. }
  split; [exact Hnd|].
  apply (getProjects_appends_single_project cfg). exact Hnd.
Defined.

(** C5, as stated, fails: a [projects] list that repeats an entry is passed
    on with the repetition, so the result is not deduplicated and differs
    from the deduplicated union. *)
Lemma getProjects_keeps_duplicates :
  let cfg := sample_config "" ["frontend"; "frontend"] "{{.Version}}"
               true true true in
  getProjects cfg = ["frontend"; "frontend"]
  ∧ ¬ NoDup (getProjects cfg)
  ∧ union_deduplicated cfg = ["frontend"]
  ∧ getProjects cfg ≠ union_deduplicated cfg.
Proof.
  intros cfg. split; [reflexivity|]. split; [|split; [reflexivity|]].
  - compute_done.
  - vm_compute. discriminate.
Qed.

(** ** Effects of the client *)

Section Effects.
Context {W : Type} {outside : Outside W} {codec : GoCodec}.

Lemma with_world_same (s : St W) : with_world s (world s) = s.
Proof. by destruct s. Qed.

Lemma request_invoked (c : SentryClient) (method endpoint : string)
    (body : option ReqBody) (t : option Target) (s s' : St W) r :
  request c method endpoint body t s = (r, s') → invoked s' = invoked s.
Proof.
  unfold request, do_request, mbind, M_bind, mret, M_ret.
  repeat case_match; intros; by simplify_eq.
Qed.

Lemma GetRelease_invoked (c : SentryClient) (version : string) (s s' : St W) r :
  GetRelease c version s = (r, s') →
  invoked s' = invoked s ++ [CallGetRelease version].
Proof.
  unfold GetRelease, mbind, M_bind, invoke. cbv beta iota zeta.
  intros Hreq. by apply (request_invoked _ _ _ _ (Some IntoRelease)) in Hreq as ->.
Qed.

Lemma SetCommits_invoked (c : SentryClient) (version : string)
    (commits : list CommitSpec) (s s' : St W) r :
  SetCommits c version commits s = (r, s') →
  invoked s' = invoked s ++ [CallSetCommits version commits].
Proof.
  unfold SetCommits, mbind, M_bind, invoke. cbv beta iota zeta.
  intros Hreq. by apply (request_invoked _ _ _ _ None) in Hreq as ->.
Qed.

Lemma CreateDeploy_invoked (c : SentryClient) (version : string)
    (deploy : DeployConfig) (s s' : St W) r :
  CreateDeploy c version deploy s = (r, s') →
  invoked s' = invoked s ++ [CallCreateDeploy version deploy].
Proof.
  unfold CreateDeploy, mbind, M_bind, invoke, now. cbv beta iota zeta.
  cbn [world]. repeat (destruct (time_Now _)).
  intros Hreq. by apply (request_invoked _ _ _ _ (Some IntoDeploy)) in Hreq as ->.
Qed.

Lemma FinalizeRelease_invoked (c : SentryClient) (version : string)
    (s s' : St W) r :
  FinalizeRelease c version s = (r, s') →
  invoked s' = invoked s ++ [CallFinalizeRelease version].
Proof.
  unfold FinalizeRelease, mbind, M_bind, invoke, now. cbv beta iota zeta.
  cbn [world]. destruct (time_Now _).
  intros Hreq. by apply (request_invoked _ _ _ _ None) in Hreq as ->.
Qed.

End Effects.

(** ** Commit extraction *)

Section Extraction.
Context {W : Type} {outside : Outside W} {codec : GoCodec}
        {templates : GoTemplate} {sdk : PluginSdk}.

Lemma clock_reads_length (n : nat) (w : W) :
  length (clock_reads n w).1 = n.
Proof.
  revert w. induction n as [|n IH]; intros w; simpl; [done|].
  destruct (time_Now w) as [t w1]. specialize (IH w1).
  destruct (clock_reads n w1) as [ts w2]. simpl in *. by rewrite IH.
Qed.

Lemma extract_loop_reads (repository : string) (allCommits : list ConventionalCommit)
    (commits : list CommitSpec) (s : St W) :
  extract_loop repository allCommits commits s
  = (commits ++ zip_with (commit_spec repository) allCommits
                  (clock_reads (length allCommits) (world s)).1,
     with_world s (clock_reads (length allCommits) (world s)).2).
Proof.
  revert commits s. induction allCommits as [|c rest IH]; intros commits s.
  - simpl. by rewrite app_nil_r, with_world_same.
  - simpl. unfold mbind, M_bind, now.
    destruct (time_Now (world s)) as [t w1]. rewrite IH. simpl.
    destruct (clock_reads (length rest) w1) as [ts w2]. simpl.
    by rewrite <- app_assoc.
Qed.

Lemma zip_commit_spec_fields (repository : string)
    (allCommits : list ConventionalCommit) (stamps : list string) :
  length stamps = length allCommits →
  let commits := zip_with (commit_spec repository) allCommits stamps in
  CommitSpec_ID <$> commits = ConventionalCommit_Hash <$> allCommits
  ∧ CommitSpec_Message <$> commits = ConventionalCommit_Description <$> allCommits
  ∧ Forall (λ c, CommitSpec_Repository c = repository) commits
  ∧ CommitSpec_Timestamp <$> commits = stamps.
Proof.
  revert stamps. induction allCommits as [|c rest IH]; intros [|t ts] Hlen;
    simpl in *; try done.
  destruct (IH ts) as (Hid & Hmsg & Hrepo & Hts); [lia|].
  split_and!; [by f_equal | by f_equal | by constructor | by f_equal].
Qed.

Lemma extractCommits_reads (cfg : Config) (releaseCtx : ReleaseContext)
    (s : St W) :
  let repository :=
    if String.eqb (CommitsConfig_Repository (Config_Commits cfg)) ""
    then "unknown" else CommitsConfig_Repository (Config_Commits cfg) in
  let reads := clock_reads (length (all_changes releaseCtx)) (world s) in
  extractCommits cfg releaseCtx s
  = (zip_with (commit_spec repository) (all_changes releaseCtx) reads.1,
     with_world s reads.2).
Proof.
  unfold extractCommits, all_changes.
  destruct (ReleaseContext_Changes releaseCtx) as [changes|]; simpl.
  - rewrite extract_loop_reads. by rewrite <- !app_assoc.
  - by rewrite with_world_same.
Qed.

Lemma extractCommits_nothing (cfg : Config) (releaseCtx : ReleaseContext)
    (s : St W) :
  (extractCommits cfg releaseCtx s).1 = [] → extractCommits cfg releaseCtx s = ([], s).
Proof.
  rewrite extractCommits_reads. simpl. intros Hnil.
  apply (f_equal length) in Hnil.
  rewrite length_zip_with, clock_reads_length in Hnil. simpl in Hnil.
  assert (all_changes releaseCtx = []) as -> by (apply length_zero_iff_nil; lia).
  simpl. by rewrite with_world_same.
Qed.

(** C8: [extractCommits] walks the features, then the fixes, then the
    breaking changes, then the others, each in its own order, and makes
    one record per commit: the commit's hash and description, the
    configured repository (["unknown"] when none is configured), and as
    time stamp the clock as read while extracting -- the stamps are the
    successive readings of the clock, whatever the commits are.  No
    operation of the client is invoked.  An event without changes gives an
    empty sequence and leaves the world as it was. *)
Theorem extractCommits_in_category_order (cfg : Config)
    (releaseCtx : ReleaseContext) (s : St W) :
  let repository :=
    if String.eqb (CommitsConfig_Repository (Config_Commits cfg)) ""
    then "unknown" else CommitsConfig_Repository (Config_Commits cfg) in
  let allCommits := all_changes releaseCtx in
  let reads := clock_reads (length allCommits) (world s) in
  let commits := (extractCommits cfg releaseCtx s).1 in
  extractCommits cfg releaseCtx s
    = (zip_with (commit_spec repository) allCommits reads.1, with_world s reads.2)
  ∧ length commits = length allCommits
  ∧ CommitSpec_ID <$> commits = ConventionalCommit_Hash <$> allCommits
  ∧ CommitSpec_Message <$> commits = ConventionalCommit_Description <$> allCommits
  ∧ Forall (λ c, CommitSpec_Repository c = repository) commits
  ∧ CommitSpec_Timestamp <$> commits = reads.1
  ∧ (allCommits = [] → extractCommits cfg releaseCtx s = ([], s)).
Proof.
  intros repository allCommits reads commits.
  pose proof (extractCommits_reads cfg releaseCtx s) as Heq.
  fold repository allCommits reads in Heq.
  assert (length reads.1 = length allCommits) as Hlen
    by apply clock_reads_length.
  destruct (zip_commit_spec_fields repository allCommits reads.1 Hlen)
    as (Hid & Hmsg & Hrepo & Hts).
  subst commits. rewrite Heq. simpl.
  split_and!; try done.
  - rewrite length_zip_with. lia.
  - subst reads. intros ->. simpl. by rewrite with_world_same.
Qed.

End Extraction.

Lemma extractCommits_in_category_order_witness :
  let cfg := sample_config "api" [] "{{.Version}}" true true true in
  all_changes sample_context_without_changes = []
  ∧ extractCommits (outside := Scripted.outside) cfg
      sample_context_without_changes (Scripted.start [])
    = ([], Scripted.start [])
  ∧ (extractCommits (outside := Scripted.outside) cfg sample_context
       (Scripted.start [])).1
    = [commit_spec "org/repo"
         {| ConventionalCommit_Hash := "abc123"; ConventionalCommit_Type := "feat";
            ConventionalCommit_Description := "Add feature" |} "t0";
       commit_spec "org/repo"
         {| ConventionalCommit_Hash := "def456"; ConventionalCommit_Type := "fix";
            ConventionalCommit_Description := "Fix bug" |} "t1"].
Proof.
  intros cfg. split; [reflexivity|]. split.
  - apply (extractCommits_in_category_order (outside := Scripted.outside) cfg
             sample_context_without_changes (Scripted.start [])).
    reflexivity.
  - rewrite (proj1 (extractCommits_in_category_order (outside := Scripted.outside)
                      cfg sample_context (Scripted.start []))).
    reflexivity.
Defined.

(** ** The phases *)

Section Phases.
Context {W : Type} {outside : Outside W} {codec : GoCodec}
        {templates : GoTemplate} {sdk : PluginSdk}.

(** C6: when the version template fails to render, pre-publish and
    post-publish alike, dry or live, return the failed result that carries
    the template error, and the state is untouched: no operation of the
    client is invoked and nothing is sent. *)
Theorem template_failure_aborts (cfg : Config) (releaseCtx : ReleaseContext)
    (dryRun : bool) (s : St W) (err : error) :
  formatVersion (Config_VersionFormat cfg) releaseCtx = Err err →
  let failed :=
    {| ExecuteResponse_Success := false;
       ExecuteResponse_Message := "";
       ExecuteResponse_Error := "Failed to format version: " +:+ err;
       ExecuteResponse_Outputs := ∅ |} in
  handlePrePublish cfg releaseCtx dryRun s = ((failed, nil_error), s)
  ∧ handlePostPublish cfg releaseCtx dryRun s = ((failed, nil_error), s).
Proof.
  intros Hfmt failed. unfold handlePrePublish, handlePostPublish.
  by rewrite Hfmt.
Qed.

(** C3, as amended: with [dryRun] set, pre-publish and post-publish leave
    the state untouched -- no operation of the client is invoked, nothing
    is sent, the clock is not read -- and the result is successful exactly
    when the version template renders. *)
Theorem dry_run_invokes_nothing (cfg : Config) (releaseCtx : ReleaseContext)
    (s : St W) :
  (handlePrePublish cfg releaseCtx true s).2 = s
  ∧ (handlePostPublish cfg releaseCtx true s).2 = s
  ∧ ExecuteResponse_Success (handlePrePublish cfg releaseCtx true s).1.1
    = is_ok (formatVersion (Config_VersionFormat cfg) releaseCtx)
  ∧ ExecuteResponse_Success (handlePostPublish cfg releaseCtx true s).1.1
    = is_ok (formatVersion (Config_VersionFormat cfg) releaseCtx).
Proof.
  unfold handlePrePublish, handlePostPublish.
  by destruct (formatVersion _ _).
Qed.

(** C9: when the configuration has no auth token, [Validate] reports the
    one error on [auth_token] and returns at once: the response is
    invalid, it holds no error on the organization, the projects or the
    version template whatever their values, and the state is untouched, so
    the organization is not fetched. *)
Theorem validate_stops_at_missing_token (config : gmap string Any) (s : St W) :
  Config_AuthToken (parseConfig config) = "" →
  Validate config s
  = (({| ValidateResponse_Valid := false;
         ValidateResponse_Errors :=
           [{| ValidationError_Field := "auth_token";
               ValidationError_Message := "Sentry auth token is required" |}] |},
      nil_error), s).
Proof.
  intros Htoken. unfold Validate. by rewrite Htoken.
Qed.

(** C10: for a hook that is none of pre-publish, post-publish and
    on-error, [Execute] answers success with the message
    "Hook <name> not implemented", touches nothing, and returns a nil
    error; and on every path [Execute] returns a response with a nil
    error. *)
Theorem execute_never_errors (req : ExecuteRequest) (s : St W) :
  (ExecuteRequest_Hook req ≠ HookPrePublish →
   ExecuteRequest_Hook req ≠ HookPostPublish →
   ExecuteRequest_Hook req ≠ HookOnError →
   Execute req s
   = (({| ExecuteResponse_Success := true;
          ExecuteResponse_Message :=
            "Hook " +:+ ExecuteRequest_Hook req +:+ " not implemented";
          ExecuteResponse_Error := "";
          ExecuteResponse_Outputs := ∅ |}, nil_error), s))
  ∧ (Execute req s).1.2 = nil_error.
Proof.
  split.
  - intros Hpre Hpost Herr. unfold Execute.
    by rewrite (proj2 (String.eqb_neq _ _) Hpre),
      (proj2 (String.eqb_neq _ _) Hpost), (proj2 (String.eqb_neq _ _) Herr).
  - unfold Execute, handlePrePublish, handlePostPublish, handleOnError.
    unfold mbind, M_bind, mret, M_ret.
    repeat case_match; by simplify_eq.
Qed.


(** C4, as amended: in a live post-publish run whose version renders, when
    deploy creation and finalization are disabled and commit association
    is disabled or finds no commit to associate, the message is
    "No actions taken" and the state is untouched: no operation of the
    client is invoked and nothing is sent. *)
Theorem postpublish_no_actions (cfg : Config) (releaseCtx : ReleaseContext)
    (version : string) (s : St W) :
  formatVersion (Config_VersionFormat cfg) releaseCtx = Ok version →
  Config_SetCommits cfg = false ∨ (extractCommits cfg releaseCtx s).1 = [] →
  Config_CreateDeploy cfg = false →
  Config_Finalize cfg = false →
  handlePostPublish cfg releaseCtx false s
  = (({| ExecuteResponse_Success := true;
         ExecuteResponse_Message := "No actions taken";
         ExecuteResponse_Error := "";
         ExecuteResponse_Outputs := <["version" := AString version]> ∅ |},
      nil_error), s).
Proof.
  intros Hfmt Hcommits Hdeploy Hfinalize.
  unfold handlePostPublish. rewrite Hfmt. cbn match.
  unfold associate_commits, create_deploy, finalize_release.
  rewrite Hdeploy, Hfinalize. unfold mbind, M_bind, mret, M_ret.
  destruct (Config_SetCommits cfg); [|done].
  destruct Hcommits as [?|Hnone]; [done|].
  by rewrite (extractCommits_nothing _ _ _ Hnone).
Qed.

Lemma attempt_invoked {A} (enabled : bool) (call : M W (result A))
    (c : ClientCall) (s s' : St W) (o : option (result A)) :
  (∀ r s1, call s = (r, s1) → invoked s1 = invoked s ++ [c]) →
  attempt enabled call s = (o, s') →
  invoked s' = invoked s ++ (if enabled then [c] else []).
Proof.
  intros Hcall. unfold attempt, mbind, M_bind, mret, M_ret.
  destruct enabled.
  - destruct (call s) as [r s1] eqn:Hrun. intros [= <- <-]. eauto.
  - intros [= <- <-]. by rewrite app_nil_r.
Qed.

Lemma associate_commits_attempt (client : SentryClient) (cfg : Config)
    (releaseCtx : ReleaseContext) (version : string) (results : list string)
    (s : St W) :
  associate_commits client cfg releaseCtx version results s
  = let '(commits, s0) :=
      if Config_SetCommits cfg then extractCommits cfg releaseCtx s
      else ([], s) in
    let '(o, s1) :=
      attempt (Config_SetCommits cfg && Nat.ltb 0 (length commits))
        (SetCommits client version commits) s0 in
    (results ++ commits_message (length commits) o, s1).
Proof.
  unfold associate_commits, attempt, mbind, M_bind, mret, M_ret.
  destruct (Config_SetCommits cfg); simpl; [|by rewrite app_nil_r].
  destruct (extractCommits cfg releaseCtx s) as [commits s0].
  destruct (Nat.ltb 0 (length commits)); [|by rewrite app_nil_r].
  by destruct (SetCommits client version commits s0) as [[?|?] ?].
Qed.

Lemma create_deploy_attempt (client : SentryClient) (cfg : Config)
    (version : string) (results : list string) (s : St W) :
  create_deploy client cfg version results s
  = let '(o, s1) :=
      attempt (Config_CreateDeploy cfg)
        (CreateDeploy client version (Config_Deploy cfg)) s in
    (results ++ deploy_message o, s1).
Proof.
  unfold create_deploy, attempt, mbind, M_bind, mret, M_ret.
  destruct (Config_CreateDeploy cfg); [|by rewrite app_nil_r].
  by destruct (CreateDeploy client version (Config_Deploy cfg) s) as [[?|?] ?].
Qed.

Lemma finalize_release_attempt (client : SentryClient) (cfg : Config)
    (version : string) (results : list string) (s : St W) :
  finalize_release client cfg version results s
  = let '(o, s1) :=
      attempt (Config_Finalize cfg) (FinalizeRelease client version) s in
    (results ++ finalize_message o, s1).
Proof.
  unfold finalize_release, attempt, mbind, M_bind, mret, M_ret.
  destruct (Config_Finalize cfg); [|by rewrite app_nil_r].
  by destruct (FinalizeRelease client version s) as [[?|?] ?].
Qed.

(** C2: in a live post-publish run whose version renders, commit
    association (when enabled and there are commits), deploy creation
    (when enabled) and finalization (when enabled) are each invoked, in
    that order, whatever the earlier ones returned; a step that fails
    leaves a warning with its error among the messages, a step that
    succeeds leaves its own message; and the result is successful, with a
    nil error, however many steps failed. *)
Theorem postpublish_is_best_effort (cfg : Config) (releaseCtx : ReleaseContext)
    (version : string) (s : St W) :
  formatVersion (Config_VersionFormat cfg) releaseCtx = Ok version →
  let client := NewSentryClient (Config_URL cfg) (Config_AuthToken cfg)
                  (Config_Org cfg) in
  let '(commits, s0) :=
    if Config_SetCommits cfg then extractCommits cfg releaseCtx s else ([], s) in
  let '(o1, s1) :=
    attempt (Config_SetCommits cfg && Nat.ltb 0 (length commits))
      (SetCommits client version commits) s0 in
  let '(o2, s2) :=
    attempt (Config_CreateDeploy cfg)
      (CreateDeploy client version (Config_Deploy cfg)) s1 in
  let '(o3, s3) :=
    attempt (Config_Finalize cfg) (FinalizeRelease client version) s2 in
  let messages :=
    commits_message (length commits) o1 ++ deploy_message o2
    ++ finalize_message o3 in
  handlePostPublish cfg releaseCtx false s
  = (({| ExecuteResponse_Success := true;
         ExecuteResponse_Message :=
           strings_Join (if Nat.eqb (length messages) 0
                         then ["No actions taken"] else messages) "; ";
         ExecuteResponse_Error := "";
         ExecuteResponse_Outputs := <["version" := AString version]> ∅ |},
      nil_error), s3)
  ∧ invoked s3 = invoked s ++ post_publish_calls cfg version commits
  ∧ (∀ err, o1 = Some (Err err) →
            "Warning: Failed to set commits: " +:+ err ∈ messages)
  ∧ (∀ err, o2 = Some (Err err) →
            "Warning: Failed to create deploy: " +:+ err ∈ messages)
  ∧ (∀ err, o3 = Some (Err err) →
            "Warning: Failed to finalize release: " +:+ err ∈ messages).
Proof.
  intros Hfmt client.
  destruct (if Config_SetCommits cfg then extractCommits cfg releaseCtx s
            else ([], s)) as [commits s0] eqn:Hextract.
  destruct (attempt _ (SetCommits client version commits) s0)
    as [o1 s1] eqn:H1.
  destruct (attempt _ (CreateDeploy client version (Config_Deploy cfg)) s1)
    as [o2 s2] eqn:H2.
  destruct (attempt _ (FinalizeRelease client version) s2) as [o3 s3] eqn:H3.
  intros messages.
  assert (invoked s0 = invoked s) as Hinv0.
  { destruct (Config_SetCommits cfg); [|by simplify_eq].
    rewrite extractCommits_reads in Hextract. by simplify_eq. }
  split_and!.
  - unfold handlePostPublish. rewrite Hfmt. cbn match. fold client.
    unfold mbind, M_bind, mret, M_ret.
    rewrite associate_commits_attempt, Hextract, H1.
    rewrite create_deploy_attempt, H2.
    rewrite finalize_release_attempt, H3.
    subst messages. rewrite app_nil_l.
    rewrite <- (app_assoc (commits_message (length commits) o1)
                  (deploy_message o2) (finalize_message o3)).
    generalize (commits_message (length commits) o1 ++ deploy_message o2
                ++ finalize_message o3).
    intros l. destruct (Nat.eqb_spec (length l) 0) as [Hnil|Hne]; [|done].
    apply nil_length_inv in Hnil. by subst l.
  - unfold post_publish_calls.
    eapply attempt_invoked in H1; [|by eauto using SetCommits_invoked].
    eapply attempt_invoked in H2; [|by eauto using CreateDeploy_invoked].
    eapply attempt_invoked in H3; [|by eauto using FinalizeRelease_invoked].
    rewrite H3, H2, H1, Hinv0. by rewrite <- !app_assoc.
  - intros err ->. subst messages. simpl. set_solver.
  - intros err ->. subst messages. simpl. set_solver.
  - intros err ->. subst messages. simpl. set_solver.
Qed.

End Phases.

(** ** The phases on the scripted environment *)

Section ScriptedRuns.
#[local] Existing Instances
  Scripted.outside Scripted.codec Scripted.templates Scripted.sdk.

Lemma template_failure_aborts_witness :
  let cfg := sample_config "api" [] "{{.Invalid" true true true in
  let s := Scripted.start [Response 200 "1.2.3"] in
  formatVersion (Config_VersionFormat cfg) sample_context
    = Err "template: version:1: unclosed action"
  ∧ handlePrePublish cfg sample_context false s
    = (({| ExecuteResponse_Success := false;
           ExecuteResponse_Message := "";
           ExecuteResponse_Error :=
             "Failed to format version: template: version:1: unclosed action";
           ExecuteResponse_Outputs := ∅ |}, nil_error), s)
  ∧ handlePostPublish cfg sample_context false s
    = (({| ExecuteResponse_Success := false;
           ExecuteResponse_Message := "";
           ExecuteResponse_Error :=
             "Failed to format version: template: version:1: unclosed action";
           ExecuteResponse_Outputs := ∅ |}, nil_error), s).
Proof.
  intros cfg s. split; [reflexivity|].
  apply (template_failure_aborts cfg sample_context false s
           "template: version:1: unclosed action").
  reflexivity.
Defined.

(** C3, as stated, fails: a dry run whose version template does not
    render reports failure, in pre-publish and in post-publish. *)
Lemma dry_run_reports_template_failure :
  let cfg := sample_config "api" [] "{{.Invalid" true true true in
  let s := Scripted.start [] in
  ExecuteResponse_Success (handlePrePublish cfg sample_context true s).1.1 = false
  ∧ ExecuteResponse_Success (handlePostPublish cfg sample_context true s).1.1
    = false.
Proof. split; reflexivity. Qed.

Lemma validate_stops_at_missing_token_witness :
  let config : gmap string Any :=
    <["org" := AString ""]> (<["version_format" := AString "{{.Invalid"]> ∅) in
  let s := Scripted.start [Response 200 "my-org"] in
  Config_AuthToken (parseConfig config) = ""
  ∧ Validate config s
    = (({| ValidateResponse_Valid := false;
           ValidateResponse_Errors :=
             [{| ValidationError_Field := "auth_token";
                 ValidationError_Message := "Sentry auth token is required" |}] |},
        nil_error), s).
Proof.
  intros config s. split; [reflexivity|].
  apply (validate_stops_at_missing_token config s). reflexivity.
Defined.

Lemma execute_never_errors_witness :
  let req := {| ExecuteRequest_Hook := "pre-version";
                ExecuteRequest_Config := ∅;
                ExecuteRequest_Context := sample_context;
                ExecuteRequest_DryRun := false |} in
  let s := Scripted.start [] in
  (ExecuteRequest_Hook req ≠ HookPrePublish
   ∧ ExecuteRequest_Hook req ≠ HookPostPublish
   ∧ ExecuteRequest_Hook req ≠ HookOnError)
  ∧ Execute req s
    = (({| ExecuteResponse_Success := true;
           ExecuteResponse_Message := "Hook pre-version not implemented";
           ExecuteResponse_Error := "";
           ExecuteResponse_Outputs := ∅ |}, nil_error), s).
Proof.
  intros req s.
  assert (ExecuteRequest_Hook req ≠ HookPrePublish
          ∧ ExecuteRequest_Hook req ≠ HookPostPublish
          ∧ ExecuteRequest_Hook req ≠ HookOnError) as Hother
    by (split_and!; discriminate).
  split; [exact Hother|]. destruct Hother as (Hpre & Hpost & Herr).
  exact (proj1 (execute_never_errors req s) Hpre Hpost Herr).
Defined.

Lemma postpublish_no_actions_witness :
  let cfg := sample_config "api" [] "{{.Version}}" true false false in
  let s := Scripted.start [Response 200 ""] in
  formatVersion (Config_VersionFormat cfg) sample_context_without_changes
    = Ok "1.2.3"
  ∧ (extractCommits cfg sample_context_without_changes s).1 = []
  ∧ handlePostPublish cfg sample_context_without_changes false s
    = (({| ExecuteResponse_Success := true;
           ExecuteResponse_Message := "No actions taken";
           ExecuteResponse_Error := "";
           ExecuteResponse_Outputs := <["version" := AString "1.2.3"]> ∅ |},
        nil_error), s).
Proof.
  intros cfg s. split; [reflexivity|]. split; [reflexivity|].
  apply (postpublish_no_actions cfg sample_context_without_changes "1.2.3" s);
    [reflexivity | right; reflexivity | reflexivity | reflexivity].
Defined.

(** C4, as stated, fails: in a dry run with the three steps disabled the
    message is empty, not "No actions taken". *)
Lemma dry_run_without_steps_has_empty_message :
  let cfg := sample_config "api" [] "{{.Version}}" false false false in
  let response :=
    (handlePostPublish cfg sample_context true (Scripted.start [])).1.1 in
  ExecuteResponse_Success response = true
  ∧ ExecuteResponse_Message response = ""
  ∧ ExecuteResponse_Message response ≠ "No actions taken".
Proof. split_and!; [reflexivity | reflexivity | discriminate]. Qed.


Lemma postpublish_is_best_effort_witness :
  let cfg := sample_config "api" [] "{{.Version}}" true true true in
  let s := Scripted.start [Response 500 "boom"; Response 200 "production";
                           Response 200 ""] in
  let commits :=
    [commit_spec "org/repo"
       {| ConventionalCommit_Hash := "abc123"; ConventionalCommit_Type := "feat";
          ConventionalCommit_Description := "Add feature" |} "t0";
     commit_spec "org/repo"
       {| ConventionalCommit_Hash := "def456"; ConventionalCommit_Type := "fix";
          ConventionalCommit_Description := "Fix bug" |} "t1"] in
  formatVersion (Config_VersionFormat cfg) sample_context = Ok "1.2.3"
  ∧ (handlePostPublish cfg sample_context false s).1
    = ({| ExecuteResponse_Success := true;
          ExecuteResponse_Message :=
            "Warning: Failed to set commits: API error: boom (status 500); "
            +:+ "Created deploy: production; Finalized release";
          ExecuteResponse_Error := "";
          ExecuteResponse_Outputs := <["version" := AString "1.2.3"]> ∅ |},
       nil_error)
  ∧ invoked (handlePostPublish cfg sample_context false s).2
    = [CallSetCommits "1.2.3" commits;
       CallCreateDeploy "1.2.3" (Config_Deploy cfg);
       CallFinalizeRelease "1.2.3"].
Proof.
  intros cfg s commits.
  assert (formatVersion (Config_VersionFormat cfg) sample_context = Ok "1.2.3")
    as Hfmt by reflexivity.
  split; [exact Hfmt|].
  pose proof (postpublish_is_best_effort cfg sample_context "1.2.3" s Hfmt)
    as Hrun.
  vm_compute in Hrun. destruct Hrun as (Hresp & Hinv & _).
  split.
  - vm_compute. exact (f_equal fst Hresp).
  - vm_compute. exact Hinv.
Defined.

End ScriptedRuns.


(** * Further properties of the client *)

Section ClientProperties.
Context {W : Type} {outside : Outside W} {codec : GoCodec}.


(** X1: a call of [request] hands at most one request to the HTTP client.
    When it hands none -- the body could not be marshalled or the request
    could not be built -- the world is left as it was and the call returns an
    error.  Otherwise the one request has the given method, the URL
    [baseURL + "/api/0" + endpoint], the header [Authorization: Bearer
    <token>] and the JSON content type, and it has a body exactly when one
    was given. *)
Theorem request_sends_at_most_once (c : SentryClient) (method endpoint : string)
    (body : option ReqBody) (t : option Target) (s s' : St W)
    (r : result (result_type t)) :
  request c method endpoint body t s = (r, s') →
  (s' = s ∧ is_ok r = false)
  ∨ (∃ reqBody,
       sent s' = sent s ++
         [{| HttpRequest_Method := method;
             HttpRequest_URL := SentryClient_baseURL c +:+ "/api/0" +:+ endpoint;
             HttpRequest_Authorization := "Bearer " +:+ SentryClient_authToken c;
             HttpRequest_ContentType := "application/json";
             HttpRequest_Body := reqBody |}]
       ∧ (reqBody = None ↔ body = None)
       ∧ invoked s' = invoked s).
Proof.
  unfold request, do_request, mbind, M_bind, mret, M_ret.
  destruct body as [b|].
  - destruct (json_Marshal b) as [jsonBody|e]; [|intros [= <- <-]; by left].
    destruct (http_NewRequest _ _); [intros [= <- <-]; by left|].
    destruct (httpClient_Do _ _) as [out w]. intros Hrun. right.
    exists (Some jsonBody).
    repeat case_match; simplify_eq; simpl; by split_and!.
  - destruct (http_NewRequest _ _); [intros [= <- <-]; by left|].
    destruct (httpClient_Do _ _) as [out w]. intros Hrun. right.
    exists None.
    repeat case_match; simplify_eq; simpl; by split_and!.
Qed.

(** What [request] returns once its request has been sent and answered. *)
Lemma request_answered (c : SentryClient) (method endpoint : string)
    (body : option ReqBody) (t : option Target) (s s' : St W)
    (r : result (result_type t)) (req : HttpRequest) (out : HttpOutcome) (w : W) :
  request c method endpoint body t s = (r, s') →
  sent s' = sent s ++ [req] →
  httpClient_Do req (world s) = (out, w) →
  world s' = w
  ∧ r = match out with
        | DoFailed e => Err ("failed to execute request: " +:+ e)
        | ReadFailed e => Err ("failed to read response: " +:+ e)
        | Response status respBody =>
            if (400 <=? status)%Z then Err (api_error respBody status)
            else decode t respBody
        end.
Proof.
  unfold request, do_request, mbind, M_bind, mret, M_ret.
  assert (∀ l : list HttpRequest, l = l ++ [req] → False) as Hnot.
  { intros l Hl. apply (f_equal length) in Hl.
    rewrite length_app in Hl. simpl in Hl. lia. }
  destruct (match body with
            | Some b => match json_Marshal b with
                        | Ok jsonBody => Ok (Some jsonBody)
                        | Err e => Err ("failed to marshal request: " +:+ e)
                        end
            | None => Ok None
            end) as [reqBody|e];
    [|intros [= <- <-] Hsent; by destruct (Hnot _ Hsent)].
  destruct (http_NewRequest _ _);
    [intros [= <- <-] Hsent; by destruct (Hnot _ Hsent)|].
  match goal with
  | |- context [httpClient_Do ?q _] => set (built := q)
  end.
  destruct (httpClient_Do built (world s)) as [out' w'] eqn:Hdo.
  intros Hrun Hsent Hout.
  assert (built = req) as <-.
  { assert (sent s' = sent s ++ [built]) as Hs'
      by (repeat case_match; by simplify_eq).
    rewrite Hs' in Hsent. by apply app_inv_head in Hsent as [= ->]. }
  rewrite Hdo in Hout. simplify_eq.
  repeat case_match; by simplify_eq.
Qed.

(** X2: once a request has been sent, every failure of the exchange comes
    back as an error: a transport failure as
    "failed to execute request: ...", a failure to read the response as
    "failed to read response: ...", and a status of 400 or more as
    "API error: <detail> (status <code>)", where the detail is that of the
    response body when it decodes to a non-empty [detail] and the raw body
    otherwise. *)
Theorem request_failure_modes (c : SentryClient) (method endpoint : string)
    (body : option ReqBody) (t : option Target) (s s' : St W)
    (r : result (result_type t)) (req : HttpRequest) (out : HttpOutcome) (w : W) :
  request c method endpoint body t s = (r, s') →
  sent s' = sent s ++ [req] →
  httpClient_Do req (world s) = (out, w) →
  match out with
  | DoFailed e => r = Err ("failed to execute request: " +:+ e)
  | ReadFailed e => r = Err ("failed to read response: " +:+ e)
  | Response status respBody =>
      (400 ≤ status)%Z →
      let detail :=
        match json_Unmarshal_APIError respBody with
        | Ok apiErr => if String.eqb (APIError_Detail apiErr) "" then respBody
                       else APIError_Detail apiErr
        | Err _ => respBody
        end in
      r = Err ("API error: " +:+ detail +:+ " (status " +:+ pretty status +:+ ")")
  end.
Proof.
  intros Hrun Hsent Hout.
  destruct (request_answered _ _ _ _ _ _ _ _ _ _ _ Hrun Hsent Hout) as [_ ->].
  destruct out as [e|e|status respBody]; [done | done |].
  intros Hstatus. rewrite (proj2 (Z.leb_le _ _) Hstatus).
  unfold api_error. destruct (json_Unmarshal_APIError respBody) as [apiErr|?];
    [|done].
  by destruct (String.eqb (APIError_Detail apiErr) "").
Qed.

(** X3: a response with a status below 400 -- a redirect as much as a 2xx --
    is a success.  When the caller wants no result the body is ignored.
    When it wants one, an empty body leaves the zero value of the result,
    and a non-empty body is decoded, a decoding error coming back as
    "failed to unmarshal response: ...". *)
Theorem request_success_below_400 (c : SentryClient) (method endpoint : string)
    (body : option ReqBody) (t : option Target) (s s' : St W)
    (r : result (result_type t)) (req : HttpRequest)
    (status : Z) (respBody : string) (w : W) :
  request c method endpoint body t s = (r, s') →
  sent s' = sent s ++ [req] →
  httpClient_Do req (world s) = (Response status respBody, w) →
  (status < 400)%Z →
  match t return result (result_type t) → Prop with
  | None => λ r, r = Ok tt
  | Some target => λ r,
      (respBody = "" → r = Ok (target_zero target))
      ∧ (respBody ≠ "" →
         r = match json_Unmarshal target respBody with
             | Ok v => Ok v
             | Err e => Err ("failed to unmarshal response: " +:+ e)
             end)
  end r.
Proof.
  intros Hrun Hsent Hout Hstatus.
  destruct (request_answered _ _ _ _ _ _ _ _ _ _ _ Hrun Hsent Hout) as [_ ->].
  rewrite (proj2 (Z.leb_gt _ _) Hstatus).
  destruct t as [target|]; [|done]. unfold decode. split.
  - by intros ->.
  - intros Hne. by destruct respBody.
Qed.














Lemma post_release_invoked (c : SentryClient) (version : string)
    (projects : list string) (s s' : St W) r :
  post_release c version projects s = (r, s') →
  invoked s' = invoked s ++ [CallCreateRelease version projects].
Proof.
  unfold post_release, mbind, M_bind, invoke, now. cbv beta iota zeta.
  cbn [world]. destruct (time_Now _).
  intros Hreq. by apply (request_invoked _ _ _ _ (Some IntoRelease)) in Hreq as ->.
Qed.

(** X5: [CreateRelease] looks the release up only after the creation
    failed.  When the creation succeeds its release is returned and nothing
    else is invoked; when it fails the lookup is invoked once, and if that
    fails too the error returned is the one of the creation, not the one of
    the lookup. *)
Theorem CreateRelease_looks_up_after_failure (c : SentryClient)
    (version : string) (projects : list string) (s : St W) :
  let created := post_release c version projects s in
  let out := CreateRelease c version projects s in
  invoked out.2
  = invoked s ++ CallCreateRelease version projects
                 :: (if is_ok created.1 then [] else [CallGetRelease version])
  ∧ (is_ok created.1 = true → out = created)
  ∧ (is_ok created.1 = false → out.2 = (GetRelease c version created.2).2)
  ∧ (is_ok out.1 = false → out.1 = created.1).
Proof.
  intros created out. subst created out.
  unfold CreateRelease, mbind, M_bind, mret, M_ret.
  destruct (post_release c version projects s) as [[release|err] s1] eqn:Hpost.
  - apply post_release_invoked in Hpost. simpl. by rewrite Hpost.
  - apply post_release_invoked in Hpost. simpl.
    destruct (GetRelease c version s1) as [[existing|err'] s2] eqn:Hget;
      apply GetRelease_invoked in Hget; simpl;
      rewrite Hget, Hpost, <- app_assoc; by split_and!.
Qed.

(** X6: the deploy that [CreateDeploy] posts has the keys [environment],
    [dateStarted] and [dateFinished], the two dates being two successive
    readings of the clock, and the key [name] exactly when the configured
    name is not empty; it has no other key. *)
Theorem CreateDeploy_body (c : SentryClient) (version : string)
    (deploy : DeployConfig) (s : St W) :
  ∃ (m : gmap string Any) (s0 : St W) (started finished : string),
    CreateDeploy c version deploy s
    = request c http_MethodPost
        ("/organizations/" +:+ SentryClient_org c +:+ "/releases/"
         +:+ url_PathEscape version +:+ "/deploys/")
        (Some (BodyMap m)) (Some IntoDeploy) s0
    ∧ clock_reads 2 (world s) = ([started; finished], world s0)
    ∧ sent s0 = sent s
    ∧ m !! "environment" = Some (AString (DeployConfig_Environment deploy))
    ∧ m !! "dateStarted" = Some (AString started)
    ∧ m !! "dateFinished" = Some (AString finished)
    ∧ m !! "name" = (if String.eqb (DeployConfig_Name deploy) "" then None
                     else Some (AString (DeployConfig_Name deploy)))
    ∧ ∀ k, is_Some (m !! k) →
           k ∈ ["environment"; "dateStarted"; "dateFinished"; "name"].
Proof.
  unfold CreateDeploy, mbind, M_bind, invoke, now. cbv beta iota zeta.
  cbn [world clock_reads].
  destruct (time_Now (world s)) as [started w1]. cbv beta iota zeta. cbn [world].
  destruct (time_Now w1) as [finished w2]. cbv beta iota zeta. cbn [world].
  set (base := <["environment" := AString (DeployConfig_Environment deploy)]>
                 (<["dateStarted" := AString started]>
                 (<["dateFinished" := AString finished]> (∅ : gmap string Any)))).
  exists (if negb (String.eqb (DeployConfig_Name deploy) "")
          then <["name" := AString (DeployConfig_Name deploy)]> base else base),
         {| world := w2;
            invoked := invoked s ++ [CallCreateDeploy version deploy];
            sent := sent s |}, started, finished.
  split; [reflexivity|]. cbn [world sent]. split; [done|]. split; [done|].
  subst base.
  destruct (String.eqb (DeployConfig_Name deploy) ""); cbn [negb];
    (split_and!; [by simplify_map_eq | by simplify_map_eq
                 | by simplify_map_eq | by simplify_map_eq |]);
    intros k [v Hk]; rewrite !elem_of_cons;
    repeat (apply lookup_insert_Some in Hk as [[<- _]|[_ Hk]]; [tauto|]);
    by rewrite lookup_empty in Hk.
Qed.

End ClientProperties.

(** * Further properties of the plugin *)

Section PureProperties.
Context {templates : GoTemplate} {sdk : PluginSdk}.

Lemma substring_0_all (n : nat) (s : string) :
  String.length s ≤ n → String.substring 0 n s = s.
Proof.
  revert s. induction n as [|n IH]; intros [|a s]; simpl; intros Hle;
    try done; try lia.
  f_equal. apply IH. lia.
Qed.

Lemma shortSHA_length (sha : string) :
  String.length (shortSHA sha) = Nat.min 7 (String.length sha).
Proof.
  unfold shortSHA. destruct (Nat.ltb_spec 7 (String.length sha)).
  - rewrite substring_0_length by lia. lia.
  - lia.
Qed.

(** X7: the result of [shortSHA] has the length of its input capped at
    seven, so it never has more than seven bytes, and shortening twice is
    shortening once. *)
Theorem shortSHA_capped_and_idempotent (sha : string) :
  String.length (shortSHA sha) = Nat.min 7 (String.length sha)
  ∧ String.length (shortSHA sha) ≤ 7
  ∧ shortSHA (shortSHA sha) = shortSHA sha.
Proof.
  pose proof (shortSHA_length sha) as Hlen.
  split_and!; [done | lia |].
  unfold shortSHA at 1.
  destruct (Nat.ltb_spec 7 (String.length (shortSHA sha))); [lia | done].
Qed.

Lemma shortSHA_substring (sha : string) :
  shortSHA sha = String.substring 0 7 sha.
Proof.
  unfold shortSHA. destruct (Nat.ltb_spec 7 (String.length sha)); [done|].
  by rewrite substring_0_all.
Qed.

(** X8: the rendered version depends on the event only through its
    version, its tag name and the first seven bytes of its commit SHA: two
    events that agree on the version and the tag and whose SHAs start with
    the same seven bytes render alike, whatever the rest of the SHAs, the
    branches and the changes. *)
Theorem formatVersion_reads_three_fields (format : string)
    (ctx ctx' : ReleaseContext) :
  ReleaseContext_Version ctx = ReleaseContext_Version ctx' →
  ReleaseContext_TagName ctx = ReleaseContext_TagName ctx' →
  String.substring 0 7 (ReleaseContext_CommitSHA ctx)
  = String.substring 0 7 (ReleaseContext_CommitSHA ctx') →
  formatVersion format ctx = formatVersion format ctx'.
Proof.
  intros Hversion Htag Hsha. unfold formatVersion.
  by rewrite Hversion, Htag, !shortSHA_substring, Hsha.
Qed.

(** X9: [getProjects] is empty exactly when neither a single project nor a
    list of projects is configured; the configured list is always a prefix
    of the result, which is longer by at most one. *)
Theorem getProjects_empty_iff (cfg : Config) :
  (getProjects cfg = [] ↔ Config_Project cfg = "" ∧ Config_Projects cfg = [])
  ∧ Config_Projects cfg `prefix_of` getProjects cfg
  ∧ length (getProjects cfg) ≤ S (length (Config_Projects cfg)).
Proof.
  rewrite getProjects_unfold. case_decide as Hd.
  - split_and!.
    + split; [by intros [? ?]%app_eq_nil | intros [? ?]; tauto].
    + by eexists.
    + rewrite length_app. simpl. lia.
  - rewrite app_nil_r. split_and!; [|done|lia].
    split; [|tauto]. intros Hnil. split; [|done].
    destruct (decide (Config_Project cfg = "")) as [|Hne]; [done|].
    destruct Hd. rewrite Hnil. split; [done | apply not_elem_of_nil].
Qed.

Lemma only_strings_fmap (names : list string) :
  only_strings (AString <$> names) = names.
Proof. induction names as [|x l IH]; simpl; by f_equal. Qed.

Lemma only_strings_elem_of (l : list Any) (p : string) :
  p ∈ only_strings l ↔ AString p ∈ l.
Proof.
  induction l as [|a l IH]; simpl; [by rewrite !elem_of_nil|].
  destruct a; rewrite ?elem_of_cons, IH;
    try (split; [by right | by intros [?|?]]).
  split; [intros [->|?]; [by left | by right]
         | intros [[= ->]|?]; [by left | by right]].
Qed.

(** X10: [parseConfig] takes the projects from a [projects] entry that is a
    list of dynamic values and keeps the strings among them, in order: a
    list of strings comes back as it is, every project kept is a string of
    the list, and any other entry -- none, a single string, a typed list of
    strings -- gives no projects. *)
Theorem parseConfig_projects (raw : gmap string Any) :
  (∀ names, raw !! "projects" = Some (ASlice (AString <$> names)) →
            Config_Projects (parseConfig raw) = names)
  ∧ (∀ l p, raw !! "projects" = Some (ASlice l) →
            (p ∈ Config_Projects (parseConfig raw) ↔ AString p ∈ l))
  ∧ ((∀ l, raw !! "projects" ≠ Some (ASlice l)) →
     Config_Projects (parseConfig raw) = []).
Proof.
  unfold parseConfig. cbn [Config_Projects]. split_and!.
  - intros names ->. apply only_strings_fmap.
  - intros l p ->. apply only_strings_elem_of.
  - intros Hnot. destruct (raw !! "projects") as [[]|]; try done.
    by edestruct Hnot.
Qed.

End PureProperties.

Section PhaseProperties.
Context {W : Type} {outside : Outside W} {codec : GoCodec}
        {templates : GoTemplate} {sdk : PluginSdk}.

Lemma extractCommits_records (cfg : Config) (releaseCtx : ReleaseContext)
    (s s' : St W) (commits : list CommitSpec) :
  extractCommits cfg releaseCtx s = (commits, s') →
  sent s' = sent s ∧ invoked s' = invoked s.
Proof. rewrite extractCommits_reads. by intros [= <- <-]. Qed.

(** X11: every record [extractCommits] makes names a repository -- the
    configured one, or ["unknown"], never the empty string -- and leaves
    the author's name and address empty; there are as many records as the
    four categories hold commits. *)
Theorem extractCommits_names_repository (cfg : Config)
    (releaseCtx : ReleaseContext) (s : St W) :
  let commits := (extractCommits cfg releaseCtx s).1 in
  Forall (λ c, CommitSpec_Repository c ≠ ""
               ∧ CommitSpec_AuthorName c = "" ∧ CommitSpec_AuthorEmail c = "")
         commits
  ∧ length commits
    = match ReleaseContext_Changes releaseCtx with
      | None => 0
      | Some changes =>
          length (CategorizedChanges_Features changes)
          + length (CategorizedChanges_Fixes changes)
          + length (CategorizedChanges_Breaking changes)
          + length (CategorizedChanges_Other changes)
      end.
Proof.
  intros commits. subst commits. rewrite extractCommits_reads. cbn [fst].
  split.
  - apply Forall_forall. intros c (x & t & -> & _ & _)%elem_of_zip_with.
    simpl. split; [|done].
    by destruct (String.eqb_spec (CommitsConfig_Repository (Config_Commits cfg)) "").
  - rewrite length_zip_with, clock_reads_length. unfold all_changes.
    destruct (ReleaseContext_Changes releaseCtx); [|done].
    rewrite !length_app. lia.
Qed.







Lemma Build_valid (vb : ValidationBuilder) :
  ValidateResponse_Valid (Build vb) = true ↔ vb = [].
Proof. unfold Build. simpl. by rewrite bool_decide_eq_true. Qed.

Lemma AddError_not_nil (vb : ValidationBuilder) (field message : string) :
  AddError vb field message ≠ [].
Proof. unfold AddError. by intros [? ?]%app_eq_nil. Qed.

(** X14: [Validate] calls a configuration valid exactly when it has an auth
    token, an organization and at least one project, its version format is
    empty or parses as a template, and the organization can be fetched. *)
Theorem Validate_valid_iff (config : gmap string Any) (s : St W) :
  let cfg := parseConfig config in
  ValidateResponse_Valid (Validate config s).1.1 = true
  ↔ Config_AuthToken cfg ≠ ""
    ∧ Config_Org cfg ≠ ""
    ∧ getProjects cfg ≠ []
    ∧ (Config_VersionFormat cfg = ""
       ∨ is_ok (template_Parse "" (Config_VersionFormat cfg)) = true)
    ∧ is_ok (GetOrganization (client_of cfg) s).1 = true.
Proof.
  intros cfg. unfold Validate. fold cfg. cbv zeta.
  destruct (String.eqb_spec (Config_AuthToken cfg) "") as [Htoken|Htoken].
  { simpl. split; [done | tauto]. }
  destruct (String.eqb_spec (Config_Org cfg) "") as [Horg|Horg]; cbn [negb andb].
  { simpl. rewrite bool_decide_eq_true. split; [|tauto].
    intros Hnil. exfalso. revert Hnil.
    repeat case_match; apply AddError_not_nil || (intros ?; by eapply AddError_not_nil). }
  unfold mbind, M_bind, mret, M_ret. fold (client_of cfg).
  destruct (GetOrganization (client_of cfg) s) as [[org|err] s1]; cbn [fst snd].
  - rewrite Build_valid.
    destruct (Nat.eqb_spec (length (getProjects cfg)) 0) as [Hlen|Hlen].
    + apply nil_length_inv in Hlen. split; [|tauto].
      intros Hnil. exfalso. revert Hnil.
      repeat case_match; apply AddError_not_nil.
    + assert (getProjects cfg ≠ []) as Hprojects
        by (intros Hnil; by rewrite Hnil in Hlen).
      destruct (String.eqb_spec (Config_VersionFormat cfg) "") as [Hfmt|Hfmt];
        cbn [negb].
      * split; [intros _; split_and!; auto | done].
      * destruct (template_Parse "" (Config_VersionFormat cfg)) as [?|?]; simpl.
        -- split; [intros _; split_and!; auto | done].
        -- split; [by intros ?%AddError_not_nil|].
           intros (_ & _ & _ & [?|?] & _); done.
  - rewrite Build_valid. simpl. split; [by intros ?%AddError_not_nil|].
    intros (_ & _ & _ & _ & ?). done.
Qed.

Lemma invokes_same (P : ClientCall → Prop) (s s' : St W) :
  invoked s' = invoked s → invokes P s s'.
Proof. intros Hsame. exists []. by rewrite app_nil_r. Qed.

Lemma invokes_one (P : ClientCall → Prop) (c : ClientCall) (s s' : St W) :
  invoked s' = invoked s ++ [c] → P c → invokes P s s'.
Proof. intros Hone HP. exists [c]. split; [done | by constructor]. Qed.

Lemma invokes_then (P : ClientCall → Prop) (s s1 s2 : St W) :
  invokes P s s1 → invokes P s1 s2 → invokes P s s2.
Proof.
  intros (calls1 & Hs1 & Hall1) (calls2 & Hs2 & Hall2).
  exists (calls1 ++ calls2). rewrite Hs2, Hs1, app_assoc.
  split; [done | by apply Forall_app].
Qed.

Lemma CreateRelease_invokes (c : SentryClient) (version : string)
    (projects : list string) (s : St W) :
  invokes (names_release version) s (CreateRelease c version projects s).2.
Proof.
  unfold CreateRelease, mbind, M_bind, mret, M_ret.
  destruct (post_release c version projects s) as [[release|err] s1] eqn:Hpost;
    apply post_release_invoked in Hpost.
  - by apply (invokes_one _ (CallCreateRelease version projects)).
  - destruct (GetRelease c version s1) as [[existing|err'] s2] eqn:Hget;
      apply GetRelease_invoked in Hget; simpl;
      (apply (invokes_then _ s s1 s2);
       [by apply (invokes_one _ (CallCreateRelease version projects))
       |by apply (invokes_one _ (CallGetRelease version))]).
Qed.

Lemma associate_commits_invokes (c : SentryClient) (cfg : Config)
    (releaseCtx : ReleaseContext) (version : string) (results : list string)
    (s : St W) :
  invokes (names_release version) s
    (associate_commits c cfg releaseCtx version results s).2.
Proof.
  unfold associate_commits, mbind, M_bind, mret, M_ret.
  destruct (Config_SetCommits cfg); [|by apply invokes_same].
  destruct (extractCommits cfg releaseCtx s) as [commits s0] eqn:Hextract.
  apply extractCommits_records in Hextract as [_ Hinv].
  destruct (Nat.ltb_spec 0 (length commits)) as [Hlen|Hlen];
    [|by apply invokes_same].
  destruct (SetCommits c version commits s0) as [r s1] eqn:Hset.
  apply SetCommits_invoked in Hset. rewrite Hinv in Hset.
  assert (invokes (names_release version) s s1) as Hgoal.
  { apply (invokes_one _ (CallSetCommits version commits)); [done|].
    split; [done|]. intros ->. simpl in Hlen. lia. }
  by destruct r.
Qed.

Lemma create_deploy_invokes (c : SentryClient) (cfg : Config)
    (version : string) (results : list string) (s : St W) :
  invokes (names_release version) s (create_deploy c cfg version results s).2.
Proof.
  unfold create_deploy, mbind, M_bind, mret, M_ret.
  destruct (Config_CreateDeploy cfg); [|by apply invokes_same].
  destruct (CreateDeploy c version (Config_Deploy cfg) s) as [r s1] eqn:Hrun.
  apply CreateDeploy_invoked in Hrun.
  assert (invokes (names_release version) s s1) as Hgoal
    by by apply (invokes_one _ (CallCreateDeploy version (Config_Deploy cfg))).
  by destruct r.
Qed.

Lemma finalize_release_invokes (c : SentryClient) (cfg : Config)
    (version : string) (results : list string) (s : St W) :
  invokes (names_release version) s (finalize_release c cfg version results s).2.
Proof.
  unfold finalize_release, mbind, M_bind, mret, M_ret.
  destruct (Config_Finalize cfg); [|by apply invokes_same].
  destruct (FinalizeRelease c version s) as [r s1] eqn:Hrun.
  apply FinalizeRelease_invoked in Hrun.
  assert (invokes (names_release version) s s1) as Hgoal
    by by apply (invokes_one _ (CallFinalizeRelease version)).
  by destruct r.
Qed.

(** X15: within one invocation of a phase the version is rendered once and
    every operation of the client is invoked with it: all that pre-publish
    and post-publish invoke, dry or live, names the rendered version; and
    commits are never set to an empty list. *)
Theorem phases_name_the_rendered_version (cfg : Config)
    (releaseCtx : ReleaseContext) (dryRun : bool) (version : string) (s : St W) :
  formatVersion (Config_VersionFormat cfg) releaseCtx = Ok version →
  invokes (names_release version) s (handlePrePublish cfg releaseCtx dryRun s).2
  ∧ invokes (names_release version) s
      (handlePostPublish cfg releaseCtx dryRun s).2.
Proof.
  intros Hfmt. unfold handlePrePublish, handlePostPublish. rewrite Hfmt.
  cbv zeta. destruct dryRun; [by split; apply invokes_same|].
  unfold mbind, M_bind, mret, M_ret. fold (client_of cfg). split.
  - pose proof (CreateRelease_invokes (client_of cfg) version (getProjects cfg) s)
      as Hcalls.
    by destruct (CreateRelease (client_of cfg) version (getProjects cfg) s)
      as [[?|?] s1].
  - pose proof (associate_commits_invokes (client_of cfg) cfg releaseCtx version
                  [] s) as H1.
    destruct (associate_commits (client_of cfg) cfg releaseCtx version [] s)
      as [r1 s1].
    pose proof (create_deploy_invokes (client_of cfg) cfg version r1 s1) as H2.
    destruct (create_deploy (client_of cfg) cfg version r1 s1) as [r2 s2].
    pose proof (finalize_release_invokes (client_of cfg) cfg version r2 s2) as H3.
    destruct (finalize_release (client_of cfg) cfg version r2 s2) as [r3 s3].
    simpl in *. eauto using invokes_then.
Qed.

(** X16: when the creation of the release succeeds, live pre-publish
    reports the release the server answered with -- its version, URL and
    creation time, not the version that was rendered -- and does not look
    the release up. *)
Theorem prepublish_reports_created_release (cfg : Config)
    (releaseCtx : ReleaseContext) (version : string) (s s1 : St W)
    (release : Release) :
  formatVersion (Config_VersionFormat cfg) releaseCtx = Ok version →
  post_release (client_of cfg) version (getProjects cfg) s = (Ok release, s1) →
  handlePrePublish cfg releaseCtx false s
  = (({| ExecuteResponse_Success := true;
         ExecuteResponse_Message :=
           "Created Sentry release: " +:+ Release_Version release;
         ExecuteResponse_Error := "";
         ExecuteResponse_Outputs :=
           <["version" := AString (Release_Version release)]>
           (<["release_url" := AString (Release_URL release)]>
           (<["date_created" := ATime (Release_DateCreated release)]> ∅)) |},
      nil_error), s1)
  ∧ invoked s1 = invoked s ++ [CallCreateRelease version (getProjects cfg)].
Proof.
  intros Hfmt Hpost. unfold handlePrePublish. rewrite Hfmt. cbv zeta.
  unfold CreateRelease, mbind, M_bind, mret, M_ret. fold (client_of cfg).
  rewrite Hpost. split; [done|]. by apply post_release_invoked in Hpost.
Qed.

Lemma append_not_empty (x y : string) : x ≠ "" → x +:+ y ≠ "".
Proof. by destruct x. Qed.

Lemma strings_Join_not_empty (elems : list string) (sep : string) :
  elems ≠ [] → Forall (λ x, x ≠ "") elems → strings_Join elems sep ≠ "".
Proof.
  destruct elems as [|x [|y rest]]; [done| |]; intros _ Hall;
    apply Forall_cons in Hall as [Hx _]; simpl; [done|].
  by apply append_not_empty.
Qed.

Lemma commits_message_not_empty (count : nat) (o : option (result unit)) :
  Forall (λ x, x ≠ "") (commits_message count o).
Proof. destruct o as [[?|?]|]; simpl; by repeat constructor. Qed.

Lemma deploy_message_not_empty (o : option (result Deploy)) :
  Forall (λ x, x ≠ "") (deploy_message o).
Proof. destruct o as [[?|?]|]; simpl; by repeat constructor. Qed.

Lemma finalize_message_not_empty (o : option (result unit)) :
  Forall (λ x, x ≠ "") (finalize_message o).
Proof. destruct o as [[?|?]|]; simpl; by repeat constructor. Qed.

(** X17: a live post-publish run whose version renders never returns an
    empty message, whichever steps are enabled and however they end. *)
Theorem postpublish_message_not_empty (cfg : Config)
    (releaseCtx : ReleaseContext) (version : string) (s : St W) :
  formatVersion (Config_VersionFormat cfg) releaseCtx = Ok version →
  ExecuteResponse_Message (handlePostPublish cfg releaseCtx false s).1.1 ≠ "".
Proof.
  intros Hfmt. unfold handlePostPublish. rewrite Hfmt. cbv zeta.
  unfold mbind, M_bind, mret, M_ret.
  rewrite associate_commits_attempt.
  destruct (if Config_SetCommits cfg then _ else _) as [commits s0].
  destruct (attempt _ (SetCommits _ _ _) s0) as [o1 s1].
  rewrite create_deploy_attempt.
  destruct (attempt _ (CreateDeploy _ _ _) s1) as [o2 s2].
  rewrite finalize_release_attempt.
  destruct (attempt _ (FinalizeRelease _ _) s2) as [o3 s3].
  cbn [fst snd ExecuteResponse_Message].
  assert (Forall (λ x, x ≠ "")
            ((([] ++ commits_message (length commits) o1) ++ deploy_message o2)
             ++ finalize_message o3)) as Hall.
  { rewrite !Forall_app. split_and!; [done | apply commits_message_not_empty
      | apply deploy_message_not_empty | apply finalize_message_not_empty]. }
  revert Hall. generalize ((([] ++ commits_message (length commits) o1)
                            ++ deploy_message o2) ++ finalize_message o3).
  intros l Hall. apply strings_Join_not_empty.
  - destruct (Nat.eqb_spec (length l) 0) as [Hlen|Hlen].
    + by intros [? ?]%app_eq_nil.
    + intros ->. by apply Hlen.
  - destruct (Nat.eqb (length l) 0); [|done].
    apply Forall_app. split; [done | by repeat constructor].
Qed.

Lemma post_publish_dry_run_steps (cfg : Config) :
  (post_publish_dry_run cfg = []
   ↔ Config_SetCommits cfg = false ∧ Config_CreateDeploy cfg = false
     ∧ Config_Finalize cfg = false)
  ∧ Forall (λ x, x ≠ "") (post_publish_dry_run cfg).
Proof.
  unfold post_publish_dry_run.
  destruct (Config_SetCommits cfg), (Config_CreateDeploy cfg),
    (Config_Finalize cfg); simpl;
    (split; [split; [done | by intros (? & ? & ?)] | by repeat constructor]).
Qed.

(** X18: a dry post-publish run whose version renders succeeds, gives the
    rendered version as its output, and returns an empty message exactly
    when commit association, deploy creation and finalization are all
    disabled; the event's changes play no part in it. *)
Theorem postpublish_dry_run_message (cfg : Config)
    (releaseCtx : ReleaseContext) (version : string) (s : St W) :
  formatVersion (Config_VersionFormat cfg) releaseCtx = Ok version →
  let response := (handlePostPublish cfg releaseCtx true s).1.1 in
  ExecuteResponse_Success response = true
  ∧ ExecuteResponse_Outputs response !! "version" = Some (AString version)
  ∧ (ExecuteResponse_Message response = ""
     ↔ Config_SetCommits cfg = false ∧ Config_CreateDeploy cfg = false
       ∧ Config_Finalize cfg = false).
Proof.
  intros Hfmt. unfold handlePostPublish. rewrite Hfmt. cbv zeta.
  cbn [fst snd mret M_ret ExecuteResponse_Success ExecuteResponse_Outputs
       ExecuteResponse_Message].
  split; [done|]. split; [by simplify_map_eq|].
  pose proof (post_publish_dry_run_steps cfg) as [Hnil Hall].
  rewrite <- Hnil. split; [|by intros ->].
  intros Hempty. destruct (post_publish_dry_run cfg) as [|x l] eqn:Hl; [done|].
  by destruct (strings_Join_not_empty (x :: l) "; ").
Qed.

(** X19: every hook [GetInfo] advertises has a handler: for each of them
    [Execute] runs pre-publish, post-publish or the error handler on the
    parsed configuration, never the fallback for unknown hooks. *)
Theorem Execute_handles_advertised_hooks (req : ExecuteRequest) (s : St W) :
  ExecuteRequest_Hook req ∈ Info_Hooks GetInfo →
  let cfg := parseConfig (ExecuteRequest_Config req) in
  let releaseCtx := ExecuteRequest_Context req in
  let dryRun := ExecuteRequest_DryRun req in
  Execute req s = handlePrePublish cfg releaseCtx dryRun s
  ∨ Execute req s = handlePostPublish cfg releaseCtx dryRun s
  ∨ Execute req s = handleOnError cfg releaseCtx dryRun s.
Proof.
  intros Hin cfg releaseCtx dryRun. unfold Execute.
  destruct (String.eqb_spec (ExecuteRequest_Hook req) HookPrePublish); [by left|].
  destruct (String.eqb_spec (ExecuteRequest_Hook req) HookPostPublish);
    [by right; left|].
  destruct (String.eqb_spec (ExecuteRequest_Hook req) HookOnError);
    [by right; right|].
  simpl in Hin. rewrite !elem_of_cons, elem_of_nil in Hin. tauto.
Qed.

(** X20: on the error hook [Execute] notes the failure and does nothing
    else: whatever the configuration, the event and the dry-run flag, the
    result is successful with a fixed message and the state is untouched. *)
Theorem Execute_on_error_does_nothing (req : ExecuteRequest) (s : St W) :
  ExecuteRequest_Hook req = HookOnError →
  HookOnError ≠ HookPrePublish →
  HookOnError ≠ HookPostPublish →
  Execute req s
  = (({| ExecuteResponse_Success := true;
         ExecuteResponse_Message := "Release failure noted (no Sentry action taken)";
         ExecuteResponse_Error := "";
         ExecuteResponse_Outputs := ∅ |}, nil_error), s).
Proof.
  intros Hhook Hpre Hpost. unfold Execute. rewrite Hhook.
  rewrite (proj2 (String.eqb_neq _ _) Hpre), (proj2 (String.eqb_neq _ _) Hpost).
  by rewrite String.eqb_refl.
Qed.

End PhaseProperties.

(** ** The further properties on the scripted environment *)

Section ScriptedChecks.
#[local] Existing Instances
  Scripted.outside Scripted.codec Scripted.templates Scripted.sdk.

Lemma request_sends_at_most_once_witness :
  let c := NewSentryClient "" "test-token" "my-org" in
  let s := Scripted.start [Response 200 "my-org"] in
  let req := {| HttpRequest_Method := "GET";
                HttpRequest_URL := "https://sentry.io/api/0/organizations/my-org/";
                HttpRequest_Authorization := "Bearer test-token";
                HttpRequest_ContentType := "application/json";
                HttpRequest_Body := None |} in
  let s' := {| world := {| Scripted.clock := 0; Scripted.replies := [] |};
               invoked := []; sent := [req] |} in
  let r := Ok {| Organization_ID := ""; Organization_Slug := "my-org";
                 Organization_Name := "" |} in
  request c http_MethodGet "/organizations/my-org/" None (Some IntoOrganization) s
    = (r, s')
  ∧ ((s' = s ∧ is_ok r = false)
     ∨ (∃ reqBody,
          sent s' = sent s ++
            [{| HttpRequest_Method := http_MethodGet;
                HttpRequest_URL :=
                  SentryClient_baseURL c +:+ "/api/0" +:+ "/organizations/my-org/";
                HttpRequest_Authorization :=
                  "Bearer " +:+ SentryClient_authToken c;
                HttpRequest_ContentType := "application/json";
                HttpRequest_Body := reqBody |}]
          ∧ (reqBody = None ↔ (None : option ReqBody) = None)
          ∧ invoked s' = invoked s)).
Proof.
  intros c s req s' r.
  assert (request c http_MethodGet "/organizations/my-org/" None
            (Some IntoOrganization) s = (r, s')) as Hrun by reflexivity.
  split; [exact Hrun|].
  exact (request_sends_at_most_once c http_MethodGet "/organizations/my-org/"
           None (Some IntoOrganization) s s' r Hrun).
Defined.

Lemma request_failure_modes_witness :
  let c := NewSentryClient "" "test-token" "my-org" in
  let s := Scripted.start [Response 404 "not found"] in
  let req := {| HttpRequest_Method := "GET";
                HttpRequest_URL := "https://sentry.io/api/0/organizations/my-org/";
                HttpRequest_Authorization := "Bearer test-token";
                HttpRequest_ContentType := "application/json";
                HttpRequest_Body := None |} in
  let run := request c http_MethodGet "/organizations/my-org/" None
               (Some IntoOrganization) s in
  run = (run.1, run.2)
  ∧ sent run.2 = sent s ++ [req]
  ∧ httpClient_Do req (world s)
    = (Response 404 "not found", {| Scripted.clock := 0; Scripted.replies := [] |})
  ∧ (400 ≤ 404)%Z
  ∧ run.1 = Err "API error: not found (status 404)".
Proof.
  intros c s req run.
  assert (run = (run.1, run.2)) as Hrun by reflexivity.
  assert (sent run.2 = sent s ++ [req]) as Hsent by reflexivity.
  assert (httpClient_Do req (world s)
          = (Response 404 "not found",
             {| Scripted.clock := 0; Scripted.replies := [] |})) as Hdo
    by reflexivity.
  assert (400 ≤ 404)%Z as Hstatus by lia.
  split_and!; [exact Hrun | exact Hsent | exact Hdo | exact Hstatus |].
  exact (request_failure_modes c http_MethodGet "/organizations/my-org/" None
           (Some IntoOrganization) s run.2 run.1 req _ _ Hrun Hsent Hdo Hstatus).
Defined.

Lemma request_success_below_400_witness :
  let c := NewSentryClient "" "test-token" "my-org" in
  let s := Scripted.start [Response 302 ""] in
  let req := {| HttpRequest_Method := "GET";
                HttpRequest_URL := "https://sentry.io/api/0/organizations/my-org/";
                HttpRequest_Authorization := "Bearer test-token";
                HttpRequest_ContentType := "application/json";
                HttpRequest_Body := None |} in
  let run := request c http_MethodGet "/organizations/my-org/" None
               (Some IntoOrganization) s in
  run = (run.1, run.2)
  ∧ sent run.2 = sent s ++ [req]
  ∧ httpClient_Do req (world s)
    = (Response 302 "", {| Scripted.clock := 0; Scripted.replies := [] |})
  ∧ (302 < 400)%Z
  ∧ run.1 = Ok zero_Organization.
Proof.
  intros c s req run.
  assert (run = (run.1, run.2)) as Hrun by reflexivity.
  assert (sent run.2 = sent s ++ [req]) as Hsent by reflexivity.
  assert (httpClient_Do req (world s)
          = (Response 302 "", {| Scripted.clock := 0; Scripted.replies := [] |}))
    as Hdo by reflexivity.
  assert (302 < 400)%Z as Hstatus by lia.
  split_and!; [exact Hrun | exact Hsent | exact Hdo | exact Hstatus |].
  exact (proj1 (request_success_below_400 c http_MethodGet
                  "/organizations/my-org/" None (Some IntoOrganization) s run.2
                  run.1 req 302 "" _ Hrun Hsent Hdo Hstatus) eq_refl).
Defined.

Lemma CreateRelease_looks_up_after_failure_witness :
  let c := NewSentryClient "" "test-token" "my-org" in
  let s := Scripted.start [Response 500 "boom"; Response 404 "not found"] in
  let out := CreateRelease c "1.2.3" ["api"] s in
  is_ok out.1 = false
  ∧ out.1 = Err "API error: boom (status 500)"
  ∧ invoked out.2 = [CallCreateRelease "1.2.3" ["api"]; CallGetRelease "1.2.3"].
Proof.
  intros c s out.
  assert (is_ok out.1 = false) as Hfailed by reflexivity.
  split; [exact Hfailed|].
  pose proof (CreateRelease_looks_up_after_failure c "1.2.3" ["api"] s)
    as (Hinvoked & _ & _ & Hkept).
  split.
  - etrans; [exact (Hkept Hfailed) | reflexivity].
  - etrans; [exact Hinvoked | reflexivity].
Defined.

Lemma formatVersion_reads_three_fields_witness :
  let other := {| ReleaseContext_Version := "1.2.3";
                  ReleaseContext_TagName := "v1.2.3";
                  ReleaseContext_CommitSHA := "abc123d000000";
                  ReleaseContext_Branch := "hotfix";
                  ReleaseContext_Changes := None |} in
  (ReleaseContext_Version sample_context = ReleaseContext_Version other
   ∧ ReleaseContext_TagName sample_context = ReleaseContext_TagName other
   ∧ String.substring 0 7 (ReleaseContext_CommitSHA sample_context)
     = String.substring 0 7 (ReleaseContext_CommitSHA other))
  ∧ formatVersion "{{.Version}}-{{.ShortSHA}}" sample_context
    = formatVersion "{{.Version}}-{{.ShortSHA}}" other.
Proof.
  intros other. split; [by split_and!|].
  apply (formatVersion_reads_three_fields _ sample_context other); reflexivity.
Defined.

Lemma parseConfig_projects_witness :
  let listed : gmap string Any :=
    <["projects" := ASlice [AString "frontend"; AString "backend"]]> ∅ in
  let single : gmap string Any := <["projects" := AString "frontend"]> ∅ in
  (listed !! "projects" = Some (ASlice (AString <$> ["frontend"; "backend"]))
   ∧ Config_Projects (parseConfig listed) = ["frontend"; "backend"])
  ∧ ((∀ l, single !! "projects" ≠ Some (ASlice l))
     ∧ Config_Projects (parseConfig single) = []).
Proof.
  intros listed single. split.
  - assert (listed !! "projects"
            = Some (ASlice (AString <$> ["frontend"; "backend"]))) as Hlisted
      by reflexivity.
    split; [exact Hlisted|].
    exact (proj1 (parseConfig_projects listed) _ Hlisted).
  - assert (∀ l, single !! "projects" ≠ Some (ASlice l)) as Hsingle
      by (intros l; discriminate).
    split; [exact Hsingle|].
    exact (proj2 (proj2 (parseConfig_projects single)) Hsingle).
Defined.


Lemma phases_name_the_rendered_version_witness :
  let cfg := sample_config "api" [] "{{.Version}}" true true true in
  let s := Scripted.start [Response 500 "boom"; Response 200 "1.2.3"] in
  formatVersion (Config_VersionFormat cfg) sample_context = Ok "1.2.3"
  ∧ invokes (names_release "1.2.3") s
      (handlePrePublish cfg sample_context false s).2
  ∧ invokes (names_release "1.2.3") s
      (handlePostPublish cfg sample_context false s).2.
Proof.
  intros cfg s.
  assert (formatVersion (Config_VersionFormat cfg) sample_context = Ok "1.2.3")
    as Hfmt by reflexivity.
  split; [exact Hfmt|].
  exact (phases_name_the_rendered_version cfg sample_context false "1.2.3" s Hfmt).
Defined.

Lemma prepublish_reports_created_release_witness :
  let cfg := sample_config "api" [] "{{.Version}}" true true true in
  let s := Scripted.start [Response 201 ""] in
  let created := post_release (client_of cfg) "1.2.3" (getProjects cfg) s in
  formatVersion (Config_VersionFormat cfg) sample_context = Ok "1.2.3"
  ∧ created = (Ok zero_Release, created.2)
  ∧ (handlePrePublish cfg sample_context false s).1
    = ({| ExecuteResponse_Success := true;
          ExecuteResponse_Message := "Created Sentry release: ";
          ExecuteResponse_Error := "";
          ExecuteResponse_Outputs :=
            <["version" := AString ""]>
            (<["release_url" := AString ""]>
            (<["date_created" := ATime zero_Time]> ∅)) |}, nil_error).
Proof.
  intros cfg s created.
  assert (formatVersion (Config_VersionFormat cfg) sample_context = Ok "1.2.3")
    as Hfmt by reflexivity.
  assert (created = (Ok zero_Release, created.2)) as Hcreated by reflexivity.
  split; [exact Hfmt|]. split; [exact Hcreated|].
  exact (f_equal fst
           (proj1 (prepublish_reports_created_release cfg sample_context "1.2.3"
                     s created.2 zero_Release Hfmt Hcreated))).
Defined.

Lemma postpublish_message_not_empty_witness :
  let cfg := sample_config "api" [] "{{.Version}}" true true false in
  let s := Scripted.start [Response 500 "boom"] in
  formatVersion (Config_VersionFormat cfg) sample_context = Ok "1.2.3"
  ∧ ExecuteResponse_Message (handlePostPublish cfg sample_context false s).1.1 ≠ "".
Proof.
  intros cfg s.
  assert (formatVersion (Config_VersionFormat cfg) sample_context = Ok "1.2.3")
    as Hfmt by reflexivity.
  split; [exact Hfmt|].
  exact (postpublish_message_not_empty cfg sample_context "1.2.3" s Hfmt).
Defined.

Lemma postpublish_dry_run_message_witness :
  let cfg := sample_config "api" [] "{{.Version}}" true false false in
  let s := Scripted.start [] in
  let response :=
    (handlePostPublish cfg sample_context_without_changes true s).1.1 in
  formatVersion (Config_VersionFormat cfg) sample_context_without_changes
    = Ok "1.2.3"
  ∧ ExecuteResponse_Success response = true
  ∧ ExecuteResponse_Outputs response !! "version" = Some (AString "1.2.3")
  ∧ (ExecuteResponse_Message response = ""
     ↔ Config_SetCommits cfg = false ∧ Config_CreateDeploy cfg = false
       ∧ Config_Finalize cfg = false).
Proof.
  intros cfg s response.
  assert (formatVersion (Config_VersionFormat cfg) sample_context_without_changes
          = Ok "1.2.3") as Hfmt by reflexivity.
  split; [exact Hfmt|].
  exact (postpublish_dry_run_message cfg sample_context_without_changes "1.2.3"
           s Hfmt).
Defined.

Lemma Execute_handles_advertised_hooks_witness :
  let req := {| ExecuteRequest_Hook := "post-publish";
                ExecuteRequest_Config := ∅;
                ExecuteRequest_Context := sample_context;
                ExecuteRequest_DryRun := true |} in
  let s := Scripted.start [] in
  ExecuteRequest_Hook req ∈ Info_Hooks GetInfo
  ∧ (Execute req s
       = handlePrePublish (parseConfig ∅) sample_context true s
     ∨ Execute req s
       = handlePostPublish (parseConfig ∅) sample_context true s
     ∨ Execute req s
       = handleOnError (parseConfig ∅) sample_context true s).
Proof.
  intros req s.
  assert (ExecuteRequest_Hook req ∈ Info_Hooks GetInfo) as Hin
    by (right; left).
  split; [exact Hin|].
  exact (Execute_handles_advertised_hooks req s Hin).
Defined.

Lemma Execute_on_error_does_nothing_witness :
  let req := {| ExecuteRequest_Hook := "on-error";
                ExecuteRequest_Config := <["auth_token" := AString "test-token"]> ∅;
                ExecuteRequest_Context := sample_context;
                ExecuteRequest_DryRun := false |} in
  let s := Scripted.start [Response 200 ""] in
  (ExecuteRequest_Hook req = HookOnError
   ∧ HookOnError ≠ HookPrePublish ∧ HookOnError ≠ HookPostPublish)
  ∧ Execute req s
    = (({| ExecuteResponse_Success := true;
           ExecuteResponse_Message :=
             "Release failure noted (no Sentry action taken)";
           ExecuteResponse_Error := "";
           ExecuteResponse_Outputs := ∅ |}, nil_error), s).
Proof.
  intros req s.
  assert (ExecuteRequest_Hook req = HookOnError) as Hhook by reflexivity.
  assert (HookOnError ≠ HookPrePublish) as Hpre by discriminate.
  assert (HookOnError ≠ HookPostPublish) as Hpost by discriminate.
  split; [by split_and!|].
  exact (Execute_on_error_does_nothing req s Hhook Hpre Hpost).
Defined.

End ScriptedChecks.

Section MoreClientProperties.
Context {W : Type} {outside : Outside W} {codec : GoCodec}.

Lemma request_sends_only (c : SentryClient) (method endpoint : string)
    (body : option ReqBody) (t : option Target) (s s' : St W) r :
  request c method endpoint body t s = (r, s') →
  sends_only (λ q, HttpRequest_Method q = method
                   ∧ HttpRequest_URL q
                     = SentryClient_baseURL c +:+ "/api/0" +:+ endpoint
                   ∧ (HttpRequest_Body q = None ↔ body = None)) s s'.
Proof.
  unfold request, do_request, mbind, M_bind, mret, M_ret.
  assert (∀ P, sends_only P s s) as Hnone by (intros P; exists []; by rewrite app_nil_r).
  destruct body as [b|].
  - destruct (json_Marshal b) as [jsonBody|e]; [|by intros [= <- <-]].
    destruct (http_NewRequest _ _); [by intros [= <- <-]|].
    destruct (httpClient_Do _ _) as [out w]. intros Hrun.
    eexists [_]. split; [repeat case_match; by simplify_eq|].
    by repeat constructor.
  - destruct (http_NewRequest _ _); [by intros [= <- <-]|].
    destruct (httpClient_Do _ _) as [out w]. intros Hrun.
    eexists [_]. split; [repeat case_match; by simplify_eq|].
    by repeat constructor.
Qed.

Lemma sends_only_after (P : HttpRequest → Prop) (s s0 s' : St W) :
  sent s0 = sent s → sends_only P s0 s' → sends_only P s s'.
Proof. intros Hsame (new & Hsent & Hall). exists new. by rewrite <- Hsame. Qed.

Lemma sends_only_weaken (P Q : HttpRequest → Prop) (s s' : St W) :
  (∀ q, P q → Q q) → sends_only P s s' → sends_only Q s s'.
Proof.
  intros HPQ (new & Hsent & Hall). exists new. split; [done|].
  by eapply Forall_impl.
Qed.

(** X21: every request about a release goes to the path of that release
    with the version path-escaped: the lookup is a GET without body on
    [.../releases/<version>/], finalizing is a PUT with a body on the same
    path, and setting commits and creating a deploy are POSTs with a body
    on its [commits/] and [deploys/] sub-paths. *)
Theorem release_requests_escape_version (c : SentryClient) (version : string)
    (s : St W) :
  let url suffix :=
    SentryClient_baseURL c +:+ "/api/0" +:+ "/organizations/"
    +:+ SentryClient_org c +:+ "/releases/" +:+ url_PathEscape version
    +:+ suffix in
  sends_only (λ q, HttpRequest_Method q = "GET" ∧ HttpRequest_URL q = url "/"
                   ∧ HttpRequest_Body q = None)
    s (GetRelease c version s).2
  ∧ sends_only (λ q, HttpRequest_Method q = "PUT" ∧ HttpRequest_URL q = url "/"
                     ∧ HttpRequest_Body q ≠ None)
      s (FinalizeRelease c version s).2
  ∧ (∀ commits,
       sends_only (λ q, HttpRequest_Method q = "POST"
                        ∧ HttpRequest_URL q = url "/commits/"
                        ∧ HttpRequest_Body q ≠ None)
         s (SetCommits c version commits s).2)
  ∧ (∀ deploy,
       sends_only (λ q, HttpRequest_Method q = "POST"
                        ∧ HttpRequest_URL q = url "/deploys/"
                        ∧ HttpRequest_Body q ≠ None)
         s (CreateDeploy c version deploy s).2).
Proof.
  intros url. subst url. split_and!; [| |intros commits|intros deploy].
  - unfold GetRelease, mbind, M_bind, invoke. cbv beta iota zeta.
    destruct (request _ _ _ _ _ _) as [r s'] eqn:Hreq.
    apply (request_sends_only _ _ _ _ (Some IntoRelease)) in Hreq.
    eapply sends_only_after; [|eapply sends_only_weaken; [|exact Hreq]]; [done|].
    intros q (? & ? & Hbody). split_and!; [done | done | by apply Hbody].
  - unfold FinalizeRelease, mbind, M_bind, invoke, now. cbv beta iota zeta.
    cbn [world]. destruct (time_Now _).
    destruct (request _ _ _ _ _ _) as [r s'] eqn:Hreq.
    apply (request_sends_only _ _ _ _ None) in Hreq.
    eapply sends_only_after; [|eapply sends_only_weaken; [|exact Hreq]]; [done|].
    intros q (? & ? & Hbody). split_and!; [done | done |].
    by intros ?%Hbody.
  - unfold SetCommits, mbind, M_bind, invoke. cbv beta iota zeta.
    destruct (request _ _ _ _ _ _) as [r s'] eqn:Hreq.
    apply (request_sends_only _ _ _ _ None) in Hreq.
    eapply sends_only_after; [|eapply sends_only_weaken; [|exact Hreq]]; [done|].
    intros q (? & ? & Hbody). split_and!; [done | done |].
    by intros ?%Hbody.
  - unfold CreateDeploy, mbind, M_bind, invoke, now. cbv beta iota zeta.
    cbn [world]. repeat (destruct (time_Now _)).
    destruct (request _ _ _ _ _ _) as [r s'] eqn:Hreq.
    apply (request_sends_only _ _ _ _ (Some IntoDeploy)) in Hreq.
    eapply sends_only_after; [|eapply sends_only_weaken; [|exact Hreq]]; [done|].
    intros q (? & ? & Hbody). split_and!; [done | done |].
    by intros ?%Hbody.
Qed.

End MoreClientProperties.

Section MorePhaseProperties.
Context {W : Type} {outside : Outside W} {codec : GoCodec}
        {templates : GoTemplate} {sdk : PluginSdk}.

(** X22: once the auth token is there, [Validate] collects its findings
    instead of stopping at the first: the fields of the errors it returns
    are, in this order, [org] when the organization is missing, [project]
    when no project is configured, [version_format] when a non-empty format
    does not parse, and [auth_token] when the organization is configured
    but cannot be fetched. *)
Theorem Validate_error_fields (config : gmap string Any) (s : St W) :
  let cfg := parseConfig config in
  Config_AuthToken cfg ≠ "" →
  ValidationError_Field <$> ValidateResponse_Errors (Validate config s).1.1
  = (if String.eqb (Config_Org cfg) "" then ["org"] else [])
    ++ (if Nat.eqb (length (getProjects cfg)) 0 then ["project"] else [])
    ++ (if negb (String.eqb (Config_VersionFormat cfg) "")
           && negb (is_ok (template_Parse "" (Config_VersionFormat cfg)))
        then ["version_format"] else [])
    ++ (if negb (String.eqb (Config_Org cfg) "")
           && negb (is_ok (GetOrganization (client_of cfg) s).1)
        then ["auth_token"] else []).
Proof.
  intros cfg Htoken. unfold Validate. fold cfg. cbv zeta.
  rewrite (proj2 (String.eqb_neq _ _) Htoken). cbn [negb andb].
  unfold mbind, M_bind, mret, M_ret. fold (client_of cfg).
  unfold AddError, NewValidationBuilder.
  destruct (String.eqb (Config_Org cfg) ""); cbn [negb andb];
    destruct (Nat.eqb (length (getProjects cfg)) 0);
    destruct (String.eqb (Config_VersionFormat cfg) ""); cbn [negb andb];
    try destruct (template_Parse "" (Config_VersionFormat cfg)) as [?|?];
    try destruct (GetOrganization (client_of cfg) s) as [[?|?] ?];
    cbn [fst snd is_ok negb Build ValidateResponse_Errors];
    by rewrite ?fmap_app.
Qed.

(** X23: the nested settings have defaults of their own.  Without a
    [commits] map commits are taken automatically and no repository is
    configured, so that every extracted commit is attributed to the
    repository ["unknown"]; without a [deploy] map the deploy has no name
    and goes to the top-level environment; without a [sourcemaps] map the
    source-map settings are all empty. *)
Theorem parseConfig_nested_defaults (raw : gmap string Any)
    (releaseCtx : ReleaseContext) (s : St W) :
  let cfg := parseConfig raw in
  ((∀ m, raw !! "commits" ≠ Some (AMap m)) →
   Config_Commits cfg
   = {| CommitsConfig_Auto := true; CommitsConfig_Repository := "" |}
   ∧ Forall (λ c, CommitSpec_Repository c = "unknown")
       (extractCommits cfg releaseCtx s).1)
  ∧ ((∀ m, raw !! "deploy" ≠ Some (AMap m)) →
     Config_Deploy cfg
     = {| DeployConfig_Environment := Config_Environment cfg;
          DeployConfig_Name := "" |})
  ∧ ((∀ m, raw !! "sourcemaps" ≠ Some (AMap m)) →
     Config_Sourcemaps cfg = zero_SourcemapsConfig).
Proof.
  intros cfg.
  assert (∀ key (o : option Any),
            o = raw !! key → (∀ m, raw !! key ≠ Some (AMap m)) →
            ∀ m, o ≠ Some (AMap m)) as Hnot by (by intros ?? ->).
  split_and!.
  - intros Hcommits.
    assert (Config_Commits cfg
            = {| CommitsConfig_Auto := true; CommitsConfig_Repository := "" |})
      as Hdefault.
    { subst cfg. unfold parseConfig. cbn [Config_Commits].
      destruct (raw !! "commits") as [[]|] eqn:Hraw; try done.
      by edestruct Hcommits. }
    split; [done|].
    rewrite extractCommits_reads, Hdefault. cbn [fst].
    apply Forall_forall. by intros c (x & t & -> & _ & _)%elem_of_zip_with.
  - intros Hdeploy. subst cfg. unfold parseConfig.
    cbn [Config_Deploy Config_Environment].
    destruct (raw !! "deploy") as [[]|] eqn:Hraw; try done.
    by edestruct Hdeploy.
  - intros Hmaps. subst cfg. unfold parseConfig. cbn [Config_Sourcemaps].
    destruct (raw !! "sourcemaps") as [[]|] eqn:Hraw; try done.
    by edestruct Hmaps.
Qed.

End MorePhaseProperties.

Section MoreScriptedChecks.
#[local] Existing Instances
  Scripted.outside Scripted.codec Scripted.templates Scripted.sdk.

Lemma Validate_error_fields_witness :
  let config : gmap string Any :=
    <["auth_token" := AString "test-token"]>
    (<["version_format" := AString "{{.Invalid"]> ∅) in
  let s := Scripted.start [] in
  Config_AuthToken (parseConfig config) ≠ ""
  ∧ ValidationError_Field <$> ValidateResponse_Errors (Validate config s).1.1
    = ["org"; "project"; "version_format"].
Proof.
  intros config s.
  assert (Config_AuthToken (parseConfig config) ≠ "") as Htoken by discriminate.
  split; [exact Htoken|].
  etrans; [exact (Validate_error_fields config s Htoken) | reflexivity].
Defined.

Lemma parseConfig_nested_defaults_witness :
  let raw : gmap string Any := <["environment" := AString "staging"]> ∅ in
  let s := Scripted.start [] in
  ((∀ m, raw !! "commits" ≠ Some (AMap m))
   ∧ (∀ m, raw !! "deploy" ≠ Some (AMap m))
   ∧ (∀ m, raw !! "sourcemaps" ≠ Some (AMap m)))
  ∧ Forall (λ c, CommitSpec_Repository c = "unknown")
      (extractCommits (parseConfig raw) sample_context s).1
  ∧ Config_Deploy (parseConfig raw)
    = {| DeployConfig_Environment := "staging"; DeployConfig_Name := "" |}
  ∧ Config_Sourcemaps (parseConfig raw) = zero_SourcemapsConfig.
Proof.
  intros raw s.
  assert (∀ m, raw !! "commits" ≠ Some (AMap m)) as Hcommits
    by (intros m; discriminate).
  assert (∀ m, raw !! "deploy" ≠ Some (AMap m)) as Hdeploy
    by (intros m; discriminate).
  assert (∀ m, raw !! "sourcemaps" ≠ Some (AMap m)) as Hmaps
    by (intros m; discriminate).
  split; [by split_and!|].
  pose proof (parseConfig_nested_defaults raw sample_context s)
    as (H1 & H2 & H3).
  split_and!.
  - exact (proj2 (H1 Hcommits)).
  - etrans; [exact (H2 Hdeploy) | reflexivity].
  - exact (H3 Hmaps).
Defined.

End MoreScriptedChecks.
